(** * Specular token list: the validation run of [src/validate.ts]

    A shallow embedding of [validate] and of the tables it reads
    ([NETWORK_DATA] of [chains.ts]), followed by the properties of the
    reconciliation logic: overrides, expected mismatches, the CoinGecko
    cross-check, the per-entry short-circuits and the propagation of
    failures.

    [validate] is an async function that appends to one local array
    [results], calls the JSON-RPC providers, the file system, [fetch] and
    two schema validators, and may be left by an uncaught exception.  It is
    embedded in a state-and-exception monad over a record [World] holding
    the answers of everything outside the file. *)

From Stdlib Require Import String Ascii List ZArith Bool Lia Permutation.
From Stdlib Require Import Sorted.
From Stdlib Require Import DecimalString.
Import ListNotations.
Local Open Scope string_scope.
Local Open Scope list_scope.

(** ** Data model ([types.ts]) *)

(** Modelled from the spec: [types.ts] is not among the sources.  The
    shapes below follow the data model of the specification and the
    property accesses made by [validate.ts]. *)
Inductive ResultType : Set := error | warning.

Record ValidationResult : Set := {
  type : ResultType;
  message : string
}.

(** [overrides?: {name?, symbol?, decimals?, bridge?}].  [validate] only
    tests each field against [undefined]; [None] is [undefined]. *)
Module Overrides.
Record t : Set := {
  bridge : option string;
  name : option string;
  symbol : option string;
  decimals : option Z
}.
End Overrides.

Module Token.
Record t : Set := {
  address : string;
  overrides : option Overrides.t
}.
End Token.

(** [tokens] is a JS object from chain key to token; [Object.entries]
    walks it in declaration order, hence the association list. *)
Module TokenData.
Record t : Set := {
  nonstandard : option bool;
  name : string;
  symbol : string;
  decimals : Z;
  tokens : list (string * Token.t)
}.
End TokenData.

(** [{symbol?: string, name?: string}]; an absent file is [{}].  The
    record is the result of [JSON.parse] on a file that nothing validates,
    so it may carry other keys; [decimals] stands for a file that
    mentions the decimals, which [validate] never reads. *)
Module ExpectedMismatches.
Record t : Set := {
  symbol : option string;
  name : option string;
  decimals : option Z
}.
Definition empty : t :=
  {| symbol := None; name := None; decimals := None |}.
End ExpectedMismatches.

(** ** The chain registry ([chains.ts]) *)

(** [new ethers.providers.StaticJsonRpcProvider(url, chainId)] *)
Record StaticJsonRpcProvider : Set := {
  url : string;
  chainId : Z
}.

Module Network.
Record t : Set := {
  id : Z;
  name : string;
  provider : StaticJsonRpcProvider;
  layer : Z
}.
End Network.

Definition NETWORK_DATA : list (string * Network.t) :=
  [ ("specular",
     {| Network.id := 93481;
        Network.name := "Specular";
        Network.provider :=
          {| url := "https://devnet.specular.network/"; chainId := 93481 |};
        Network.layer := 2 |});
    ("sepolia",
     {| Network.id := 11155111;
        Network.name := "Sepolia";
        Network.provider :=
          {| url := "https://eth-sepolia-public.unifra.io";
             chainId := 11155111 |};
        Network.layer := 1 |}) ].

(** The own property [chain] of a table: its value, [None] when the
    table has no such key of its own.  For [NETWORK_DATA[chain]] a key
    that is not an own key is either [undefined] or, for a member name of
    [Object.prototype] ([constructor], [toString], ...), the inherited
    member; [validate_token] tells the two apart. *)
Fixpoint lookup {A : Type} (key : string) (obj : list (string * A))
  : option A :=
  match obj with
  | [] => None
  | (k, v) :: rest => if String.eqb k key then Some v else lookup key rest
  end.

(** ** The chain keys of the schema ([schemas.ts]) *)

(** [TOKEN_DATA_SCHEMA.properties.tokens.properties]: the chain names the
    schema declares.  (What the validator accepts as a key of [tokens] is
    the validator's matter and is not modelled.) *)
Definition TOKEN_DATA_SCHEMA_tokens_properties : list string :=
  ["specular"; "sepolia"].

(** ** Exceptions, external answers *)

Inductive Exn : Set :=
| TypeError (msg : string)
| ENOENT (path : string)
| Thrown (what : string).

(** What a call into the outside returns: a value or a thrown exception. *)
Inductive result (A : Type) : Type :=
| Ok (a : A)
| Err (e : Exn).
Arguments Ok {A} a.
Arguments Err {A} e.

(** The JSON-RPC reads [validate] issues through a contract object bound
    to a provider and an address. *)
Inductive Call : Set :=
| getCode (p : StaticJsonRpcProvider) (addr : string)
| call_decimals (p : StaticJsonRpcProvider) (addr : string)
| call_symbol (p : StaticJsonRpcProvider) (addr : string)
| call_name (p : StaticJsonRpcProvider) (addr : string).

Module ValidationError.
Record t : Set := {
  property : string;
  message : string
}.
End ValidationError.

(** [jsonschema]'s [ValidatorResult], as far as [validate] reads it. *)
Module ValidatorResult.
Record t : Set := {
  valid : bool;
  errors : list ValidationError.t
}.
End ValidatorResult.

Module CgToken.
Record t : Set := { address : string }.
End CgToken.

Module CgList.
Record t : Set := { tokens : list CgToken.t }.
End CgList.

(** Everything [validate] obtains from outside.  The RPC answers may
    depend on the reads made so far (a node may answer the same read
    differently later in the run). *)
Record World : Type := {
  (* fs *)
  readdirSync : string -> result (list string);
  files : string -> option string;
  (* path, glob *)
  path_join : list string -> string;
  glob_sync : string -> list string;
  (* String.prototype.localeCompare *)
  localeCompare : string -> string -> Z;
  (* JSON.parse at the declared types *)
  parse_TokenData : string -> result TokenData.t;
  parse_ExpectedMismatches : string -> result ExpectedMismatches.t;
  (* new Validator().validate(data, TOKEN_DATA_SCHEMA) *)
  schema_validate : TokenData.t -> ValidatorResult.t;
  (* fetch(...) followed by .json() *)
  fetch_coingecko : result CgList.t;
  (* ethers *)
  rpc_getCode : list Call -> StaticJsonRpcProvider -> string -> result string;
  rpc_decimals : list Call -> StaticJsonRpcProvider -> string -> result Z;
  rpc_symbol : list Call -> StaticJsonRpcProvider -> string -> result string;
  rpc_name : list Call -> StaticJsonRpcProvider -> string -> result string;
  (* new ethers.Contract(address, TOKEN_ABI, undefined): the exception it
     throws, if any *)
  Contract_without_provider : string -> option Exn;
  (* the JS runtime: Object.prototype has a member of that name *)
  Object_prototype_has : string -> bool;
  (* generate(datadir); the compiled ajv validator applied to the list:
     None when it accepts, else JSON.stringify(validator.errors, null, 2) *)
  generate : string -> result string;
  ajv_errors : string -> option string
}.

(** ** The monad of [validate] *)

(** The array [results] and the log of RPC reads made so far. *)
Record State : Set := {
  results : list ValidationResult;
  calls : list Call
}.

Inductive outcome (A : Type) : Type :=
| Normal (a : A) (s : State)
| Throw (e : Exn) (s : State).
Arguments Normal {A} a s.
Arguments Throw {A} e s.

Definition M (A : Type) : Type := State -> outcome A.

Definition ret {A : Type} (a : A) : M A := fun s => Normal a s.

Definition bind {A B : Type} (m : M A) (k : A -> M B) : M B :=
  fun s =>
    match m s with
    | Normal a s' => k a s'
    | Throw e s' => Throw e s'
    end.

Notation "x <- m ;; k" := (bind m (fun x => k))
  (at level 61, m at next level, right associativity).
Notation "m ;;; k" := (bind m (fun _ => k))
  (at level 61, right associativity).

Definition throw {A : Type} (e : Exn) : M A := fun s => Throw e s.

(** [try { m } catch (err) { h }]: what [m] did before throwing stays. *)
Definition try_catch {A : Type} (m : M A) (h : Exn -> M A) : M A :=
  fun s =>
    match m s with
    | Normal a s' => Normal a s'
    | Throw e s' => h e s'
    end.

Definition lift {A : Type} (r : result A) : M A :=
  match r with
  | Ok a => ret a
  | Err e => throw e
  end.

(** [results.push({ type, message })] *)
Definition push (t : ResultType) (msg : string) : M unit :=
  fun s =>
    Normal tt {| results := results s ++ [{| type := t; message := msg |}];
                 calls := calls s |}.

(** One RPC read: logged, then answered by the world. *)
Definition rpc {A : Type} (c : Call) (answer : list Call -> result A)
  : M A :=
  fun s =>
    let s' := {| results := results s; calls := calls s ++ [c] |} in
    match answer (calls s) with
    | Ok a => Normal a s'
    | Err e => Throw e s'
    end.

Definition when (b : bool) (m : M unit) : M unit :=
  if b then m else ret tt.

(** ** Library functions used by [validate] *)

(** [String.prototype.toLowerCase], on the ASCII letters (addresses and
    folder names are ASCII). *)
Definition lower_ascii (c : ascii) : ascii :=
  let n := nat_of_ascii c in
  if (65 <=? n)%nat && (n <=? 90)%nat then ascii_of_nat (n + 32) else c.

Fixpoint toLowerCase (s : string) : string :=
  match s with
  | EmptyString => EmptyString
  | String c rest => String (lower_ascii c) (toLowerCase rest)
  end.

(** A number inside a template string. *)
Definition string_of_nat (n : nat) : string :=
  NilEmpty.string_of_uint (Nat.to_uint n).

(** [Array.prototype.includes] on strings. *)
Definition includes (l : list string) (x : string) : bool :=
  existsb (String.eqb x) l.

(** [Array.prototype.sort(cmp)]: a stable sort. *)
Fixpoint insert (cmp : string -> string -> Z) (x : string)
  (l : list string) : list string :=
  match l with
  | [] => [x]
  | y :: l' =>
      if (cmp x y <=? 0)%Z then x :: y :: l' else y :: insert cmp x l'
  end.

Definition sort (cmp : string -> string -> Z) (l : list string)
  : list string :=
  fold_right (insert cmp) [] l.

(** [fs.existsSync] and [fs.readFileSync(path, 'utf8')]. *)
Definition existsSync (w : World) (p : string) : bool :=
  match files w p with
  | Some _ => true
  | None => false
  end.

Definition readFileSync (w : World) (p : string) : result string :=
  match files w p with
  | Some text => Ok text
  | None => Err (ENOENT p)
  end.

(** [for (const x of l) { body }] *)
Fixpoint for_each {A : Type} (l : list A) (body : A -> M unit) : M unit :=
  match l with
  | [] => ret tt
  | x :: rest => body x ;;; for_each rest body
  end.

(** ** [validate]: the checks of one (chain, token) pair *)

(** [`${folder} on chain ${chain} token ${token.address}` + tail] *)
Definition token_message (folder chain : string) (token : Token.t)
  (tail : string) : string :=
  folder ++ " on chain " ++ chain ++ " token " ++ Token.address token
    ++ tail.

(** [token.overrides?.decimals], [?.symbol], [?.name] *)
Definition overrides_decimals (token : Token.t) : option Z :=
  match Token.overrides token with
  | Some o => Overrides.decimals o
  | None => None
  end.

Definition overrides_symbol (token : Token.t) : option string :=
  match Token.overrides token with
  | Some o => Overrides.symbol o
  | None => None
  end.

Definition overrides_name (token : Token.t) : option string :=
  match Token.overrides token with
  | Some o => Overrides.name o
  | None => None
  end.

(** [x !== s] for an optional string [x]. *)
Definition strict_neq (x : option string) (s : string) : bool :=
  match x with
  | Some v => negb (String.eqb v s)
  | None => true
  end.

(** Lines 115-121: the token exists on this chain. *)
Definition check_exists (w : World) (p : StaticJsonRpcProvider)
  (folder chain : string) (token : Token.t) : M unit :=
  code <- rpc (getCode p (Token.address token))
              (fun h => rpc_getCode w h p (Token.address token)) ;;
  when (String.eqb code "0x")
       (push error (token_message folder chain token " does not exist")).

(** Lines 123-143: the decimals. *)
Definition check_decimals (w : World) (p : StaticJsonRpcProvider)
  (folder : string) (data : TokenData.t) (chain : string)
  (token : Token.t) : M unit :=
  match overrides_decimals token with
  | None =>
      try_catch
        (onchain <- rpc (call_decimals p (Token.address token))
                        (fun h => rpc_decimals w h p (Token.address token)) ;;
         when (negb (Z.eqb (TokenData.decimals data) onchain))
              (push error
                 (token_message folder chain token " has incorrect decimals")))
        (fun _ =>
           push error
             (token_message folder chain token " failed to get decimals"))
  | Some _ =>
      push warning
        (token_message folder chain token " has overridden decimals")
  end.

(** Lines 145-168: the symbol. *)
Definition check_symbol (w : World) (p : StaticJsonRpcProvider)
  (folder : string) (data : TokenData.t)
  (expectedMismatches : ExpectedMismatches.t) (chain : string)
  (token : Token.t) : M unit :=
  match overrides_symbol token with
  | None =>
      try_catch
        (onchain <- rpc (call_symbol p (Token.address token))
                        (fun h => rpc_symbol w h p (Token.address token)) ;;
         when (negb (String.eqb (TokenData.symbol data) onchain)
               && strict_neq (ExpectedMismatches.symbol expectedMismatches)
                             (TokenData.symbol data))
              (push error
                 (token_message folder chain token " has incorrect symbol")))
        (fun _ =>
           push error
             (token_message folder chain token " failed to get symbol"))
  | Some _ =>
      push warning
        (token_message folder chain token " has overridden symbol")
  end.

(** Lines 170-193: the name. *)
Definition check_name (w : World) (p : StaticJsonRpcProvider)
  (folder : string) (data : TokenData.t)
  (expectedMismatches : ExpectedMismatches.t) (chain : string)
  (token : Token.t) : M unit :=
  match overrides_name token with
  | None =>
      try_catch
        (onchain <- rpc (call_name p (Token.address token))
                        (fun h => rpc_name w h p (Token.address token)) ;;
         when (negb (String.eqb (TokenData.name data) onchain)
               && strict_neq (ExpectedMismatches.name expectedMismatches)
                             (TokenData.name data))
              (push error
                 (token_message folder chain token " has incorrect name")))
        (fun _ =>
           push error
             (token_message folder chain token " failed to get name"))
  | Some _ =>
      push warning
        (token_message folder chain token " has overridden name")
  end.

(** [cg.tokens.find(t => t.address.toLowerCase() ===
    token.address.toLowerCase())] *)
Definition cg_find (cg : CgList.t) (token : Token.t) : option CgToken.t :=
  find (fun t => String.eqb (toLowerCase (CgToken.address t))
                            (toLowerCase (Token.address token)))
       (CgList.tokens cg).

(** Lines 195-208: the Ethereum token is on the CoinGecko list. *)
Definition check_coingecko (cg : option CgList.t) (folder chain : string)
  (token : Token.t) : M unit :=
  if String.eqb chain "ethereum" then
    match cg with
    | Some list =>
        match cg_find list token with
        | Some _ => ret tt
        | None =>
            push warning
              (token_message folder chain token
                 " not found on CoinGecko token list")
        end
    | None => ret tt
    end
  else ret tt.

(** [data.nonstandard !== true] *)
Definition not_nonstandard (data : TokenData.t) : bool :=
  match TokenData.nonstandard data with
  | Some true => false
  | _ => true
  end.

(** Lines 105-210, the body of the loop over [Object.entries(data.tokens)].
    [networkData.provider] on an [undefined] [networkData] is a TypeError
    (line 112).  When [chain] names a member of [Object.prototype],
    [networkData] is that member and [networkData.provider] is
    [undefined]: the contract is built without provider, which may throw
    (line 109), and [contract.provider] is [null], so that
    [contract.provider.getCode] is a TypeError (line 116). *)
Definition validate_token (w : World) (cg : option CgList.t)
  (folder : string) (data : TokenData.t)
  (expectedMismatches : ExpectedMismatches.t) (chain : string)
  (token : Token.t) : M unit :=
  if negb (String.eqb folder "ETH") && not_nonstandard data then
    match lookup chain NETWORK_DATA with
    | None =>
        if Object_prototype_has w chain then
          match Contract_without_provider w (Token.address token) with
          | Some e => throw e
          | None =>
              throw (TypeError
                       "Cannot read properties of null (reading 'getCode')")
          end
        else
          throw (TypeError
                   "Cannot read properties of undefined (reading 'provider')")
    | Some networkData =>
        let p := Network.provider networkData in
        check_exists w p folder chain token ;;;
        check_decimals w p folder data chain token ;;;
        check_symbol w p folder data expectedMismatches chain token ;;;
        check_name w p folder data expectedMismatches chain token ;;;
        check_coingecko cg folder chain token
    end
  else ret tt.

(** ** [validate]: one folder, and the run *)

(** Lines 92-98: one diagnostic per schema error. *)
Definition schema_message (folder : string) (e : ValidationError.t)
  : string :=
  folder ++ ": " ++ ValidationError.property e ++ ": "
    ++ ValidationError.message e.

(** Lines 78-87. *)
Definition load_expectedMismatches (w : World) (datadir folder : string)
  : M ExpectedMismatches.t :=
  let expectedMismatchesFilePath :=
    path_join w [datadir; folder; "expectedMismatches.json"] in
  if existsSync w expectedMismatchesFilePath then
    text <- lift (readFileSync w expectedMismatchesFilePath) ;;
    lift (parse_ExpectedMismatches w text)
  else ret ExpectedMismatches.empty.

(** Lines 56-211, the body of the loop over [folders]. *)
Definition validate_folder (w : World) (cg : option CgList.t)
  (datadir folder : string) : M unit :=
  let datafile := path_join w [datadir; folder; "data.json"] in
  when (negb (existsSync w datafile))
       (push error ("data file " ++ datafile ++ " does not exist")) ;;;
  text <- lift (readFileSync w datafile) ;;
  data <- lift (parse_TokenData w text) ;;
  let logofiles :=
    glob_sync w (path_join w [datadir; folder] ++ "/logo.{png,svg}") in
  when (negb (Nat.eqb (length logofiles) 1))
       (push error
          (folder ++ " has " ++ string_of_nat (length logofiles)
             ++ " logo files, make sure your logo is either logo.png OR logo.svg"))
    ;;;
  expectedMismatches <- load_expectedMismatches w datadir folder ;;
  let result := schema_validate w data in
  if negb (ValidatorResult.valid result) then
    for_each (ValidatorResult.errors result)
             (fun e => push error (schema_message folder e))
  else
    for_each (TokenData.tokens data)
             (fun entry =>
                validate_token w cg folder data expectedMismatches
                  (fst entry) (snd entry)).

(** Lines 32-39.  [tokens] is [None] when the argument is null or
    undefined. *)
Definition requested (tokens : option (list string)) (folder : string)
  : bool :=
  match tokens with
  | None => true
  | Some l => includes l folder
  end.

Definition list_folders (w : World) (datadir : string)
  (tokens : option (list string)) : result (list string) :=
  match readdirSync w datadir with
  | Ok names =>
      Ok (filter (requested tokens)
            (sort (fun a b => localeCompare w (toLowerCase a) (toLowerCase b))
                  names))
  | Err e => Err e
  end.

(** Lines 42-54. *)
Definition load_coingecko (w : World) : M (option CgList.t) :=
  try_catch
    (cg <- lift (fetch_coingecko w) ;; ret (Some cg))
    (fun _ =>
       push warning "fetch for CoinGecko token list failed" ;;; ret None).

(** Lines 213-229. *)
Definition validate_final (w : World) (datadir : string)
  : M (list ValidationResult) :=
  list <- lift (generate w datadir) ;;
  match ajv_errors w list with
  | Some errs => push error ("final token list is invalid: " ++ errs)
  | None => ret tt
  end ;;;
  fun s => Normal (results s) s.

(** [validate(datadir, tokens)]; the [console.log] of line 31 is left
    out. *)
Definition validate (w : World) (datadir : string)
  (tokens : option (list string)) : M (list ValidationResult) :=
  folders <- lift (list_folders w datadir tokens) ;;
  cg <- load_coingecko w ;;
  for_each folders (validate_folder w cg datadir) ;;;
  validate_final w datadir.

(** A call of [validate]: [results] starts empty. *)
Definition initial : State := {| results := []; calls := [] |}.

Definition run_validate (w : World) (datadir : string)
  (tokens : option (list string)) : outcome (list ValidationResult) :=
  validate w datadir tokens initial.

(** ** Vocabulary of the statements *)

(** The fields checked against the chain.  [symbol] and [name] are the
    two textual ones; they are treated alike by [validate]. *)
Inductive TextField : Set := Symbol | Name.

Inductive Field : Set := Decimals | Text (f : TextField).

Definition field_word (f : Field) : string :=
  match f with
  | Decimals => "decimals"
  | Text Symbol => "symbol"
  | Text Name => "name"
  end.

(** The block of [validate_token] that handles field [f]. *)
Definition check_field (f : Field) (w : World) (p : StaticJsonRpcProvider)
  (folder : string) (data : TokenData.t)
  (expectedMismatches : ExpectedMismatches.t) (chain : string)
  (token : Token.t) : M unit :=
  match f with
  | Decimals => check_decimals w p folder data chain token
  | Text Symbol =>
      check_symbol w p folder data expectedMismatches chain token
  | Text Name => check_name w p folder data expectedMismatches chain token
  end.

(** [overrides.<field>] is present. *)
Definition overridden (f : Field) (token : Token.t) : bool :=
  match f with
  | Decimals =>
      match overrides_decimals token with Some _ => true | None => false end
  | Text Symbol =>
      match overrides_symbol token with Some _ => true | None => false end
  | Text Name =>
      match overrides_name token with Some _ => true | None => false end
  end.

Definition declared (f : TextField) (data : TokenData.t) : string :=
  match f with
  | Symbol => TokenData.symbol data
  | Name => TokenData.name data
  end.

Definition expected (f : TextField) (em : ExpectedMismatches.t)
  : option string :=
  match f with
  | Symbol => ExpectedMismatches.symbol em
  | Name => ExpectedMismatches.name em
  end.

(** The RPC read of a textual field and the answer the world gives to it
    after the reads [h]. *)
Definition text_call (f : TextField) (p : StaticJsonRpcProvider)
  (addr : string) : Call :=
  match f with
  | Symbol => call_symbol p addr
  | Name => call_name p addr
  end.

Definition text_answer (f : TextField) (w : World) (h : list Call)
  (p : StaticJsonRpcProvider) (addr : string) : result string :=
  match f with
  | Symbol => rpc_symbol w h p addr
  | Name => rpc_name w h p addr
  end.

(** State [s] after one more RPC read, after more diagnostics. *)
Definition after_call (s : State) (c : Call) : State :=
  {| results := results s; calls := calls s ++ [c] |}.

Definition with_results (s : State) (ds : list ValidationResult) : State :=
  {| results := results s ++ ds; calls := calls s |}.

Definition diag (t : ResultType) (msg : string) : ValidationResult :=
  {| type := t; message := msg |}.

(** ** Sample worlds *)

(** Member names of [Object.prototype], for the sample worlds. *)
Definition Object_prototype_names : list string :=
  ["constructor"; "hasOwnProperty"; "isPrototypeOf"; "propertyIsEnumerable";
   "toLocaleString"; "toString"; "valueOf"; "__proto__"].

(** A data directory [data] with the single folder [FOO]; the answers of
    the outside are the parameters. *)
Definition byte_compare (a b : string) : Z :=
  match String.compare a b with
  | Lt => (-1)%Z
  | Eq => 0%Z
  | Gt => 1%Z
  end.

Definition sample_world (fs : string -> option string)
  (data : TokenData.t) (em : ExpectedMismatches.t)
  (checked : ValidatorResult.t) (cg : result CgList.t)
  (code : result string) (dec : result Z) (sym nam : result string)
  : World :=
  {| readdirSync := fun _ => Ok ["FOO"];
     files := fs;
     path_join := String.concat "/";
     glob_sync := fun _ => ["data/FOO/logo.svg"];
     localeCompare := byte_compare;
     parse_TokenData := fun _ => Ok data;
     parse_ExpectedMismatches := fun _ => Ok em;
     schema_validate := fun _ => checked;
     fetch_coingecko := cg;
     rpc_getCode := fun _ _ _ => code;
     rpc_decimals := fun _ _ _ => dec;
     rpc_symbol := fun _ _ _ => sym;
     rpc_name := fun _ _ _ => nam;
     Contract_without_provider := fun _ => None;
     Object_prototype_has := includes Object_prototype_names;
     generate := fun _ => Ok "{}";
     ajv_errors := fun _ => None |}.

Definition no_files : string -> option string := fun _ => None.

Definition only_data_json : string -> option string :=
  fun p => if String.eqb p "data/FOO/data.json" then Some "{}" else None.

Definition with_expectedMismatches : string -> option string :=
  fun p =>
    if String.eqb p "data/FOO/data.json" then Some "{}"
    else if String.eqb p "data/FOO/expectedMismatches.json" then Some "{}"
    else None.

Definition accepted : ValidatorResult.t :=
  {| ValidatorResult.valid := true; ValidatorResult.errors := [] |}.

Definition rejected : ValidatorResult.t :=
  {| ValidatorResult.valid := false;
     ValidatorResult.errors :=
       [ {| ValidationError.property := "instance.description";
            ValidationError.message :=
              "does not meet maximum length of 1000" |};
         {| ValidationError.property := "instance.decimals";
            ValidationError.message := "is not of a type(s) integer" |} ] |}.

Definition sample_address : string :=
  "0xAAAAaaaaAAAAaaaaAAAAaaaaAAAAaaaaAAAAaaaa".

Definition plain_token : Token.t :=
  {| Token.address := sample_address; Token.overrides := None |}.

Definition overriding_token : Token.t :=
  {| Token.address := sample_address;
     Token.overrides :=
       Some {| Overrides.bridge := None;
               Overrides.name := Some "Foo Coin";
               Overrides.symbol := Some "FOO";
               Overrides.decimals := Some 18%Z |} |}.

Definition foo_on (chain : string) (token : Token.t) : TokenData.t :=
  {| TokenData.nonstandard := None;
     TokenData.name := "Foo";
     TokenData.symbol := "FOO";
     TokenData.decimals := 18%Z;
     TokenData.tokens := [(chain, token)] |}.

Definition foo_nonstandard : TokenData.t :=
  {| TokenData.nonstandard := Some true;
     TokenData.name := "Foo";
     TokenData.symbol := "FOO";
     TokenData.decimals := 18%Z;
     TokenData.tokens := [("sepolia", plain_token)] |}.

Definition approved : ExpectedMismatches.t :=
  {| ExpectedMismatches.symbol := Some "FOO";
     ExpectedMismatches.name := Some "Foo";
     ExpectedMismatches.decimals := Some 18%Z |}.

Definition sepolia_provider : StaticJsonRpcProvider :=
  {| url := "https://eth-sepolia-public.unifra.io"; chainId := 11155111 |}.

Definition empty_coingecko : CgList.t := {| CgList.tokens := [] |}.

Definition network_down : Exn := Thrown "network error".

(** ** Vocabulary of the statements about one folder and about the run *)

(** Lines 69-76: the diagnostic of the logo check. *)
Definition logo_diagnostics (w : World) (datadir folder : string)
  : list ValidationResult :=
  let n :=
    length (glob_sync w (path_join w [datadir; folder] ++ "/logo.{png,svg}"))
  in
  if Nat.eqb n 1 then []
  else [diag error
          (folder ++ " has " ++ string_of_nat n
             ++ " logo files, make sure your logo is either logo.png OR logo.svg")].

(** One error per schema violation, in the order of [result.errors]. *)
Definition schema_diagnostics (folder : string)
  (errors : list ValidationError.t) : list ValidationResult :=
  map (fun e => diag error (schema_message folder e)) errors.

(** The files of [folder] load: [data.json] exists and parses to [data],
    [expectedMismatches.json] is absent or parses to [em]. *)
Definition loads (w : World) (datadir folder : string) (data : TokenData.t)
  (em : ExpectedMismatches.t) : Prop :=
  (exists text,
      files w (path_join w [datadir; folder; "data.json"]) = Some text
      /\ parse_TokenData w text = Ok data)
  /\ match files w (path_join w [datadir; folder; "expectedMismatches.json"])
     with
     | Some text => parse_ExpectedMismatches w text = Ok em
     | None => em = ExpectedMismatches.empty
     end.

(** The entry is exempt from chain verification (line 107). *)
Definition exempt (folder : string) (data : TokenData.t) : Prop :=
  folder = "ETH" \/ TokenData.nonstandard data = Some true.

Definition fetch_failed : ValidationResult :=
  diag warning "fetch for CoinGecko token list failed".

Definition fetch_diagnostics (w : World) : list ValidationResult :=
  match fetch_coingecko w with
  | Ok _ => []
  | Err _ => [fetch_failed]
  end.

Definition final_diagnostics (w : World) (tokenlist : string)
  : list ValidationResult :=
  match ajv_errors w tokenlist with
  | Some errs => [diag error ("final token list is invalid: " ++ errs)]
  | None => []
  end.

(** The comparator handed to [sort] at lines 34-36. *)
Definition folder_order (w : World) (a b : string) : Z :=
  localeCompare w (toLowerCase a) (toLowerCase b).

(** An action only appends to [results], whether it returns or throws. *)
Definition appends {A : Type} (m : M A) : Prop :=
  forall s,
    match m s with
    | Normal _ s' | Throw _ s' => exists ds, results s' = results s ++ ds
    end.

(** ** Vocabulary of the statements about the reads of a token *)

(** The RPC read of field [f]. *)
Definition field_call (f : Field) (p : StaticJsonRpcProvider)
  (addr : string) : Call :=
  match f with
  | Decimals => call_decimals p addr
  | Text t => text_call t p addr
  end.

(** After the reads [h], the read of field [f] throws. *)
Definition field_read_fails (f : Field) (w : World) (h : list Call)
  (p : StaticJsonRpcProvider) (addr : string) : bool :=
  match f with
  | Decimals =>
      match rpc_decimals w h p addr with Err _ => true | Ok _ => false end
  | Text t =>
      match text_answer t w h p addr with Err _ => true | Ok _ => false end
  end.

(** After the reads [h], the read of field [f] returns the declared
    value. *)
Definition field_read_matches (f : Field) (w : World) (h : list Call)
  (p : StaticJsonRpcProvider) (addr : string) (data : TokenData.t) : bool :=
  match f with
  | Decimals =>
      match rpc_decimals w h p addr with
      | Ok onchain => Z.eqb (TokenData.decimals data) onchain
      | Err _ => false
      end
  | Text t =>
      match text_answer t w h p addr with
      | Ok onchain => String.eqb (declared t data) onchain
      | Err _ => false
      end
  end.

(** The entry is chain-verified (line 107). *)
Definition verified (folder : string) (data : TokenData.t) : Prop :=
  folder <> "ETH" /\ TokenData.nonstandard data <> Some true.

(** The reads of the fields that are not overridden, in the order of the
    blocks; with [getCode] in front, the reads of a token. *)
Definition reads_of (f : Field) (p : StaticJsonRpcProvider)
  (token : Token.t) : list Call :=
  if overridden f token then [] else [field_call f p (Token.address token)].

Definition token_reads (p : StaticJsonRpcProvider) (token : Token.t)
  : list Call :=
  getCode p (Token.address token)
    :: reads_of Decimals p token ++ reads_of (Text Symbol) p token
    ++ reads_of (Text Name) p token.

Definition is_warning (d : ValidationResult) : bool :=
  match type d with
  | warning => true
  | error => false
  end.

Definition overridden_count (token : Token.t) : nat :=
  length (filter (fun f => overridden f token)
            [Decimals; Text Symbol; Text Name]).

(** The TypeError raised by [networkData.provider] on an undefined
    [networkData], and by [contract.provider.getCode] on a contract
    without provider. *)
Definition undefined_provider : Exn :=
  TypeError "Cannot read properties of undefined (reading 'provider')".

Definition null_provider : Exn :=
  TypeError "Cannot read properties of null (reading 'getCode')".

(** What is thrown for a chain key that [NETWORK_DATA] does not own: for a
    member name of [Object.prototype] the failure of the contract built
    without provider, else the TypeError on the undefined network. *)
Definition missing_network_failure (w : World) (chain : string)
  (token : Token.t) : Exn :=
  if Object_prototype_has w chain then
    match Contract_without_provider w (Token.address token) with
    | Some e => e
    | None => null_provider
    end
  else undefined_provider.


(** ** The bridge tables ([chains.ts]) *)

Module L2BridgeInformation.
Record t : Set := { l2StandardBridgeAddress : string }.
End L2BridgeInformation.

Module L1BridgeInformation.
Record t : Set := {
  l2Chain : string;
  l1StandardBridgeAddress : string
}.
End L1BridgeInformation.

Definition L2_STANDARD_BRIDGE_INFORMATION
  : list (string * L2BridgeInformation.t) :=
  [ ("specular",
     {| L2BridgeInformation.l2StandardBridgeAddress :=
          "0x4200000000000000000000000000000000000010" |}) ].

Definition L2_TO_L1_PAIR : list (string * string) :=
  [ ("specular", "ethereum") ].

Definition L1_STANDARD_BRIDGE_INFORMATION
  : list (string * list L1BridgeInformation.t) :=
  [ ("ethereum",
     [ {| L1BridgeInformation.l2Chain := "specular";
          L1BridgeInformation.l1StandardBridgeAddress :=
            "0x99C9fc46f92E8a1c0deC1b1747d010903E884bE1" |} ]);
    ("sepolia", []) ].

(** [ADDRESS_TYPE]: [minLength] and [maxLength] ([schemas.ts]). *)
Definition ADDRESS_TYPE_minLength : nat := 42.
Definition ADDRESS_TYPE_maxLength : nat := 42.

(** ** More sample worlds *)

(** The world [w] with another answer of the fetch. *)
Definition with_fetch (w : World) (r : result CgList.t) : World :=
  {| readdirSync := readdirSync w;
     files := files w;
     path_join := path_join w;
     glob_sync := glob_sync w;
     localeCompare := localeCompare w;
     parse_TokenData := parse_TokenData w;
     parse_ExpectedMismatches := parse_ExpectedMismatches w;
     schema_validate := schema_validate w;
     fetch_coingecko := r;
     rpc_getCode := rpc_getCode w;
     rpc_decimals := rpc_decimals w;
     rpc_symbol := rpc_symbol w;
     rpc_name := rpc_name w;
     Contract_without_provider := Contract_without_provider w;
     Object_prototype_has := Object_prototype_has w;
     generate := generate w;
     ajv_errors := ajv_errors w |}.

(** A directory listing [names] with no file in it, compared by length. *)
Definition by_length (a b : string) : Z :=
  (Z.of_nat (String.length a) - Z.of_nat (String.length b))%Z.

Definition listing_world (names : list string) : World :=
  {| readdirSync := fun _ => Ok names;
     files := no_files;
     path_join := String.concat "/";
     glob_sync := fun _ => [];
     localeCompare := by_length;
     parse_TokenData := fun _ => Err (Thrown "SyntaxError");
     parse_ExpectedMismatches := fun _ => Err (Thrown "SyntaxError");
     schema_validate := fun _ => accepted;
     fetch_coingecko := Ok empty_coingecko;
     rpc_getCode := fun _ _ _ => Err network_down;
     rpc_decimals := fun _ _ _ => Err network_down;
     rpc_symbol := fun _ _ _ => Err network_down;
     rpc_name := fun _ _ _ => Err network_down;
     Contract_without_provider := fun _ => None;
     Object_prototype_has := includes Object_prototype_names;
     generate := fun _ => Ok "{}";
     ajv_errors := fun _ => Some "[]" |}.

(** The folder [FOO] with a [data.json] that parses and an
    [expectedMismatches.json] that does not. *)
Definition broken_expectedMismatches_world : World :=
  {| readdirSync := fun _ => Ok ["FOO"];
     files := with_expectedMismatches;
     path_join := String.concat "/";
     glob_sync := fun _ => ["data/FOO/logo.svg"];
     localeCompare := byte_compare;
     parse_TokenData := fun _ => Ok (foo_on "sepolia" plain_token);
     parse_ExpectedMismatches := fun _ => Err (Thrown "SyntaxError");
     schema_validate := fun _ => accepted;
     fetch_coingecko := Ok empty_coingecko;
     rpc_getCode := fun _ _ _ => Ok "0x60";
     rpc_decimals := fun _ _ _ => Ok 18%Z;
     rpc_symbol := fun _ _ _ => Ok "FOO";
     rpc_name := fun _ _ _ => Ok "Foo";
     Contract_without_provider := fun _ => None;
     Object_prototype_has := includes Object_prototype_names;
     generate := fun _ => Ok "{}";
     ajv_errors := fun _ => None |}.

Definition symbol_only_override : Token.t :=
  {| Token.address := sample_address;
     Token.overrides :=
       Some {| Overrides.bridge := None;
               Overrides.name := None;
               Overrides.symbol := Some "FOO";
               Overrides.decimals := None |} |}.

(** ** Vocabulary of the statements about aborted runs *)

(** One of the two JSON files of [folder] exists and [JSON.parse] throws
    on it. *)
Definition unparsable (w : World) (datadir folder : string) : Prop :=
  (exists text e,
      files w (path_join w [datadir; folder; "data.json"]) = Some text
      /\ parse_TokenData w text = Err e)
  \/
  (exists text e,
      files w (path_join w [datadir; folder; "expectedMismatches.json"])
        = Some text
      /\ parse_ExpectedMismatches w text = Err e).

(** The order in which [sort] leaves two folders. *)
Definition folder_le (w : World) (a b : string) : Prop :=
  (folder_order w a b <= 0)%Z.

(** [pre] in front of the diagnostics of a state, of an outcome. *)
Definition prepend (pre : list ValidationResult) (s : State) : State :=
  {| results := pre ++ results s; calls := calls s |}.

Definition prepend_outcome {A : Type} (pre : list ValidationResult)
  (o : outcome A) : outcome A :=
  match o with
  | Normal a s => Normal a (prepend pre s)
  | Throw e s => Throw e (prepend pre s)
  end.

(** An action does not look at the diagnostics collected so far. *)
Definition blind {A : Type} (m : M A) : Prop :=
  forall pre s, m (prepend pre s) = prepend_outcome pre (m s).

(** The report of a run with [pre] in front. *)
Definition prepend_report (pre : list ValidationResult)
  (o : outcome (list ValidationResult)) : outcome (list ValidationResult) :=
  match o with
  | Normal rs s => Normal (pre ++ rs) (prepend pre s)
  | Throw e s => Throw e (prepend pre s)
  end.

(** A fetched list holding the sample address in lower case. *)
Definition lowercase_coingecko : CgList.t :=
  {| CgList.tokens :=
       [ {| CgToken.address :=
              "0xaaaaaaaaaaaaaaaaaaaaaaaaaaaaaaaaaaaaaaaa" |} ] |}.

(** The address of [token] is on the list [cg], compared in lower case. *)
Definition listed (cg : CgList.t) (token : Token.t) : Prop :=
  exists t,
    In t (CgList.tokens cg)
    /\ toLowerCase (CgToken.address t) = toLowerCase (Token.address token).

(** The folder [FOO] with a [data.json] that parses to data the schema
    rejects, and an [expectedMismatches.json] that does not parse. *)
Definition rejected_with_broken_expectedMismatches_world : World :=
  {| readdirSync := fun _ => Ok ["FOO"];
     files := with_expectedMismatches;
     path_join := String.concat "/";
     glob_sync := fun _ => ["data/FOO/logo.svg"];
     localeCompare := byte_compare;
     parse_TokenData := fun _ => Ok (foo_on "sepolia" plain_token);
     parse_ExpectedMismatches := fun _ => Err (Thrown "SyntaxError");
     schema_validate := fun _ => rejected;
     fetch_coingecko := Ok empty_coingecko;
     rpc_getCode := fun _ _ _ => Ok "0x60";
     rpc_decimals := fun _ _ _ => Ok 18%Z;
     rpc_symbol := fun _ _ _ => Ok "FOO";
     rpc_name := fun _ _ _ => Ok "Foo";
     Contract_without_provider := fun _ => None;
     Object_prototype_has := includes Object_prototype_names;
     generate := fun _ => Ok "{}";
     ajv_errors := fun _ => None |}.


(** * Properties *)

(** ** Basic facts *)

Lemma with_results_nil (s : State) : with_results s [] = s.
Proof.
  destruct s as [rs cs]. unfold with_results. simpl.
  now rewrite app_nil_r.
Qed.

Lemma with_results_app (s : State) (xs ys : list ValidationResult) :
  with_results (with_results s xs) ys = with_results s (xs ++ ys).
Proof.
  unfold with_results. simpl. now rewrite app_assoc.
Qed.

Lemma push_run (t : ResultType) (msg : string) (s : State) :
  push t msg s = Normal tt (with_results s [diag t msg]).
Proof. reflexivity. Qed.

Lemma rpc_ok {A : Type} (c : Call) (answer : list Call -> result A)
  (s : State) (a : A) :
  answer (calls s) = Ok a -> rpc c answer s = Normal a (after_call s c).
Proof. intros H. unfold rpc. now rewrite H. Qed.

Lemma rpc_err {A : Type} (c : Call) (answer : list Call -> result A)
  (s : State) (e : Exn) :
  answer (calls s) = Err e -> rpc c answer s = Throw e (after_call s c).
Proof. intros H. unfold rpc. now rewrite H. Qed.

Lemma strict_neq_false (x : option string) (v : string) :
  strict_neq x v = false <-> x = Some v.
Proof.
  destruct x as [u|]; simpl.
  - rewrite negb_false_iff, String.eqb_eq. split; congruence.
  - split; discriminate.
Qed.

Lemma strict_neq_true (x : option string) (v : string) :
  strict_neq x v = true <-> x <> Some v.
Proof.
  rewrite <- strict_neq_false. destruct (strict_neq x v); split; congruence.
Qed.

(** The body of the token loop for a chain-verified token on a registered
    chain: the existence check, the three field checks, the CoinGecko
    check. *)
Lemma validate_token_verified (w : World) (cg : option CgList.t)
  (folder : string) (data : TokenData.t) (em : ExpectedMismatches.t)
  (chain : string) (token : Token.t) (net : Network.t) :
  folder <> "ETH" ->
  TokenData.nonstandard data <> Some true ->
  lookup chain NETWORK_DATA = Some net ->
  validate_token w cg folder data em chain token =
    (check_exists w (Network.provider net) folder chain token ;;;
     check_field Decimals w (Network.provider net) folder data em chain token
       ;;;
     check_field (Text Symbol) w (Network.provider net) folder data em chain
       token ;;;
     check_field (Text Name) w (Network.provider net) folder data em chain
       token ;;;
     check_coingecko cg folder chain token).
Proof.
  intros Hf Hn Hl. unfold validate_token.
  apply String.eqb_neq in Hf. rewrite Hf.
  assert (Hs : not_nonstandard data = true).
  { unfold not_nonstandard.
    destruct (TokenData.nonstandard data) as [[|]|]; congruence. }
  rewrite Hs, Hl. reflexivity.
Qed.

(** ** The textual fields: what a differing on-chain value yields *)

(** [check_symbol] and [check_name] after a successful read that differs
    from the declared value: the read is logged and the error depends on
    the comparison of the expected mismatch with the declared value
    only. *)
Lemma check_text_differs (f : TextField) (w : World)
  (p : StaticJsonRpcProvider) (folder : string) (data : TokenData.t)
  (em : ExpectedMismatches.t) (chain : string) (token : Token.t)
  (s : State) (onchain : string) :
  overridden (Text f) token = false ->
  text_answer f w (calls s) p (Token.address token) = Ok onchain ->
  onchain <> declared f data ->
  check_field (Text f) w p folder data em chain token s =
    Normal tt
      (with_results (after_call s (text_call f p (Token.address token)))
         (if strict_neq (expected f em) (declared f data)
          then [diag error
                  (token_message folder chain token
                     (" has incorrect " ++ field_word (Text f)))]
          else [])).
Proof.
  intros Hov Hrpc Hne.
  assert (Hd : String.eqb (declared f data) onchain = false)
    by (apply String.eqb_neq; congruence).
  destruct f; simpl in *.
  - unfold check_symbol.
    destruct (overrides_symbol token); [discriminate|].
    unfold try_catch, bind. rewrite (rpc_ok _ _ _ _ Hrpc), Hd. simpl.
    destruct (strict_neq _ _); simpl.
    + reflexivity.
    + now rewrite with_results_nil.
  - unfold check_name.
    destruct (overrides_name token); [discriminate|].
    unfold try_catch, bind. rewrite (rpc_ok _ _ _ _ Hrpc), Hd. simpl.
    destruct (strict_neq _ _); simpl.
    + reflexivity.
    + now rewrite with_results_nil.
Qed.

(** C1.  For a chain-verified token whose [symbol] (resp. [name]) is not
    overridden, when the RPC read succeeds with a value different from the
    declared one: if the expected mismatch of the field equals the
    declared value, the check adds no diagnostic at all (the results are
    unchanged, only the read is logged); otherwise it adds exactly the
    error "has incorrect symbol" (resp. name). *)
Theorem expected_mismatch_matching_declared_is_silent
  (f : TextField) (w : World) (p : StaticJsonRpcProvider)
  (folder : string) (data : TokenData.t) (em : ExpectedMismatches.t)
  (chain : string) (token : Token.t) (s : State) (onchain : string) :
  overridden (Text f) token = false ->
  text_answer f w (calls s) p (Token.address token) = Ok onchain ->
  onchain <> declared f data ->
  (expected f em = Some (declared f data) ->
   check_field (Text f) w p folder data em chain token s =
     Normal tt (after_call s (text_call f p (Token.address token))))
  /\
  (expected f em <> Some (declared f data) ->
   check_field (Text f) w p folder data em chain token s =
     Normal tt
       (with_results (after_call s (text_call f p (Token.address token)))
          [diag error
             (token_message folder chain token
                (" has incorrect " ++ field_word (Text f)))])).
Proof.
  intros Hov Hrpc Hne.
  rewrite (check_text_differs f w p folder data em chain token s onchain
             Hov Hrpc Hne).
  split; intros He.
  - apply strict_neq_false in He. rewrite He. now rewrite with_results_nil.
  - apply strict_neq_true in He. now rewrite He.
Qed.

Lemma expected_mismatch_matching_declared_is_silent_witness :
  check_field (Text Symbol)
    (sample_world only_data_json (foo_on "sepolia" plain_token) approved
       accepted (Ok empty_coingecko) (Ok "0x60") (Ok 18%Z) (Ok "BAR")
       (Ok "Foo"))
    sepolia_provider "FOO" (foo_on "sepolia" plain_token) approved "sepolia"
    plain_token initial
  = Normal tt (after_call initial (call_symbol sepolia_provider sample_address)).
Proof.
  apply (proj1
           (expected_mismatch_matching_declared_is_silent Symbol
              (sample_world only_data_json (foo_on "sepolia" plain_token)
                 approved accepted (Ok empty_coingecko) (Ok "0x60")
                 (Ok 18%Z) (Ok "BAR") (Ok "Foo"))
              sepolia_provider "FOO" (foo_on "sepolia" plain_token) approved
              "sepolia" plain_token initial "BAR"
              eq_refl eq_refl
              (fun H : "BAR" = "FOO" => ltac:(discriminate H)))).
  reflexivity.
Defined.

(** ** Expected mismatches and the on-chain value *)

Lemma snoc_neq {A : Type} (l : list A) (d : A) : l ++ [d] <> l.
Proof.
  intros H. apply (f_equal (@length _)) in H. rewrite length_app in H.
  simpl in H. lia.
Qed.

(** C2, as stated, fails: with declared symbol [FOO], expected mismatch
    [FOO] and on-chain symbol [BAR], the discrepancy is excused (no
    diagnostic) although the on-chain value is not the recorded
    expectation. *)
Lemma excused_although_onchain_differs_from_expectation :
  let w := sample_world only_data_json (foo_on "sepolia" plain_token)
             approved accepted (Ok empty_coingecko) (Ok "0x60") (Ok 18%Z)
             (Ok "BAR") (Ok "Foo") in
  rpc_symbol w [] sepolia_provider sample_address = Ok "BAR"
  /\ TokenData.symbol (foo_on "sepolia" plain_token) = "FOO"
  /\ ExpectedMismatches.symbol approved = Some "FOO"
  /\ ExpectedMismatches.symbol approved <> Some "BAR"
  /\ check_symbol w sepolia_provider "FOO" (foo_on "sepolia" plain_token)
       approved "sepolia" plain_token initial
     = Normal tt
         {| results := [];
            calls := [call_symbol sepolia_provider sample_address] |}.
Proof.
  simpl. repeat split; try reflexivity. discriminate.
Qed.

(** C2, amended.  When the on-chain [symbol] (resp. [name]) differs from
    the declared value, the discrepancy is excused (no diagnostic) exactly
    when the expected mismatch of the field equals the declared value; the
    on-chain value is not compared with the expected mismatch, and
    whenever the discrepancy is excused it differs from it. *)
Theorem expected_mismatch_is_compared_with_declared_value
  (f : TextField) (w : World) (p : StaticJsonRpcProvider)
  (folder : string) (data : TokenData.t) (em : ExpectedMismatches.t)
  (chain : string) (token : Token.t) (s : State) (onchain : string) :
  overridden (Text f) token = false ->
  text_answer f w (calls s) p (Token.address token) = Ok onchain ->
  onchain <> declared f data ->
  (check_field (Text f) w p folder data em chain token s =
     Normal tt (after_call s (text_call f p (Token.address token)))
   <-> expected f em = Some (declared f data))
  /\
  (check_field (Text f) w p folder data em chain token s =
     Normal tt (after_call s (text_call f p (Token.address token)))
   -> expected f em <> Some onchain).
Proof.
  intros Hov Hrpc Hne.
  rewrite (check_text_differs f w p folder data em chain token s onchain
             Hov Hrpc Hne).
  assert (Hiff :
    Normal tt
      (with_results (after_call s (text_call f p (Token.address token)))
         (if strict_neq (expected f em) (declared f data)
          then [diag error
                  (token_message folder chain token
                     (" has incorrect " ++ field_word (Text f)))]
          else []))
    = Normal tt (after_call s (text_call f p (Token.address token)))
    <-> expected f em = Some (declared f data)).
  { rewrite <- strict_neq_false.
    destruct (strict_neq (expected f em) (declared f data)).
    - split; [|discriminate]. intros H. injection H as H.
      now apply snoc_neq in H.
    - split; [reflexivity|]. intros _. now rewrite with_results_nil. }
  split; [exact Hiff|].
  intros H. apply Hiff in H. rewrite H. congruence.
Qed.

Lemma expected_mismatch_is_compared_with_declared_value_witness :
  ExpectedMismatches.name approved <> Some "Bar".
Proof.
  apply (proj2
           (expected_mismatch_is_compared_with_declared_value Name
              (sample_world only_data_json (foo_on "sepolia" plain_token)
                 approved accepted (Ok empty_coingecko) (Ok "0x60")
                 (Ok 18%Z) (Ok "FOO") (Ok "Bar"))
              sepolia_provider "FOO" (foo_on "sepolia" plain_token) approved
              "sepolia" plain_token initial "Bar"
              eq_refl eq_refl
              (fun H : "Bar" = "Foo" => ltac:(discriminate H)))).
  reflexivity.
Defined.

(** ** Decimals *)

(** C3.  For a chain-verified token whose decimals are not overridden, a
    successful read that differs from the declared decimals adds exactly
    one error, "has incorrect decimals", whatever the expected-mismatches
    record holds (also one that mentions the decimals). *)
Theorem decimals_mismatch_is_always_one_error
  (w : World) (p : StaticJsonRpcProvider) (folder : string)
  (data : TokenData.t) (em : ExpectedMismatches.t) (chain : string)
  (token : Token.t) (s : State) (onchain : Z) :
  overridden Decimals token = false ->
  rpc_decimals w (calls s) p (Token.address token) = Ok onchain ->
  onchain <> TokenData.decimals data ->
  check_field Decimals w p folder data em chain token s =
    Normal tt
      (with_results (after_call s (call_decimals p (Token.address token)))
         [diag error
            (token_message folder chain token " has incorrect decimals")]).
Proof.
  intros Hov Hrpc Hne. simpl in *. unfold check_decimals.
  destruct (overrides_decimals token); [discriminate|].
  unfold try_catch, bind. rewrite (rpc_ok _ _ _ _ Hrpc).
  assert (Hd : Z.eqb (TokenData.decimals data) onchain = false)
    by (apply Z.eqb_neq; congruence).
  rewrite Hd. reflexivity.
Qed.

Lemma decimals_mismatch_is_always_one_error_witness :
  ExpectedMismatches.decimals approved = Some 18%Z
  /\ check_field Decimals
       (sample_world only_data_json (foo_on "sepolia" plain_token) approved
          accepted (Ok empty_coingecko) (Ok "0x60") (Ok 6%Z) (Ok "FOO")
          (Ok "Foo"))
       sepolia_provider "FOO" (foo_on "sepolia" plain_token) approved
       "sepolia" plain_token initial
     = Normal tt
         {| results :=
              [diag error
                 "FOO on chain sepolia token 0xAAAAaaaaAAAAaaaaAAAAaaaaAAAAaaaaAAAAaaaa has incorrect decimals"];
            calls := [call_decimals sepolia_provider sample_address] |}.
Proof.
  split; [reflexivity|].
  apply (decimals_mismatch_is_always_one_error
           (sample_world only_data_json (foo_on "sepolia" plain_token)
              approved accepted (Ok empty_coingecko) (Ok "0x60") (Ok 6%Z)
              (Ok "FOO") (Ok "Foo"))
           sepolia_provider "FOO" (foo_on "sepolia" plain_token) approved
           "sepolia" plain_token initial 6%Z eq_refl eq_refl).
  simpl. lia.
Defined.

(** ** Overrides *)

(** The block of a field taken alone: when [overrides.<field>] is present
    it makes no RPC read (the log of reads is unchanged) and adds exactly
    one diagnostic, the warning "has overridden <field>", whatever the
    world would have answered. *)
Theorem override_yields_one_warning_and_no_read
  (f : Field) (w : World) (p : StaticJsonRpcProvider) (folder : string)
  (data : TokenData.t) (em : ExpectedMismatches.t) (chain : string)
  (token : Token.t) (s : State) :
  overridden f token = true ->
  check_field f w p folder data em chain token s =
    Normal tt
      {| results :=
           results s ++
           [diag warning
              (token_message folder chain token
                 (" has overridden " ++ field_word f))];
         calls := calls s |}.
Proof.
  intros Hov. destruct f as [|[|]]; simpl in *.
  - unfold check_decimals.
    destruct (overrides_decimals token); [reflexivity|discriminate].
  - unfold check_symbol.
    destruct (overrides_symbol token); [reflexivity|discriminate].
  - unfold check_name.
    destruct (overrides_name token); [reflexivity|discriminate].
Qed.

Lemma override_yields_one_warning_and_no_read_witness :
  check_field Decimals
    (sample_world only_data_json (foo_on "sepolia" overriding_token) approved
       accepted (Ok empty_coingecko) (Ok "0x60") (Ok 6%Z) (Ok "BAR")
       (Err network_down))
    sepolia_provider "FOO" (foo_on "sepolia" overriding_token) approved
    "sepolia" overriding_token initial
  = Normal tt
      {| results :=
           [diag warning
              "FOO on chain sepolia token 0xAAAAaaaaAAAAaaaaAAAAaaaaAAAAaaaaAAAAaaaa has overridden decimals"];
         calls := [] |}.
Proof.
  apply (override_yields_one_warning_and_no_read Decimals
           (sample_world only_data_json (foo_on "sepolia" overriding_token)
              approved accepted (Ok empty_coingecko) (Ok "0x60") (Ok 6%Z)
              (Ok "BAR") (Err network_down))
           sepolia_provider "FOO" (foo_on "sepolia" overriding_token)
           approved "sepolia" overriding_token initial).
  reflexivity.
Defined.

(** ** Failures that leave [validate] *)

(** A missing [data.json]: the error is pushed, the loop body goes on to
    [readFileSync], and that throws. *)
Lemma missing_data_file_throws (w : World) (cg : option CgList.t)
  (datadir folder : string) (s : State) :
  files w (path_join w [datadir; folder; "data.json"]) = None ->
  validate_folder w cg datadir folder s =
    Throw (ENOENT (path_join w [datadir; folder; "data.json"]))
      (with_results s
         [diag error
            ("data file " ++ path_join w [datadir; folder; "data.json"]
               ++ " does not exist")]).
Proof.
  intros H. unfold validate_folder, bind, existsSync, readFileSync.
  rewrite H. reflexivity.
Qed.

(** A [data.json] that [JSON.parse] rejects. *)
Lemma malformed_data_file_throws (w : World) (cg : option CgList.t)
  (datadir folder : string) (s : State) (text : string) (e : Exn) :
  files w (path_join w [datadir; folder; "data.json"]) = Some text ->
  parse_TokenData w text = Err e ->
  validate_folder w cg datadir folder s = Throw e s.
Proof.
  intros H1 H2. unfold validate_folder, bind, existsSync, readFileSync.
  rewrite H1. simpl. rewrite H2. reflexivity.
Qed.

(** A failing [getCode] is outside every [try]: it leaves
    [validate_token], with nothing pushed. *)
Lemma getCode_failure_throws (w : World) (cg : option CgList.t)
  (folder : string) (data : TokenData.t) (em : ExpectedMismatches.t)
  (chain : string) (token : Token.t) (s : State) (net : Network.t)
  (e : Exn) :
  folder <> "ETH" ->
  TokenData.nonstandard data <> Some true ->
  lookup chain NETWORK_DATA = Some net ->
  rpc_getCode w (calls s) (Network.provider net) (Token.address token)
    = Err e ->
  validate_token w cg folder data em chain token s =
    Throw e
      (after_call s (getCode (Network.provider net) (Token.address token))).
Proof.
  intros Hf Hn Hl He. unfold validate_token.
  apply String.eqb_neq in Hf. rewrite Hf.
  assert (Hs : not_nonstandard data = true).
  { unfold not_nonstandard.
    destruct (TokenData.nonstandard data) as [[|]|]; congruence. }
  rewrite Hs, Hl. simpl. unfold bind, check_exists, bind.
  now rewrite (rpc_err _ _ _ _ He).
Qed.

(** What throws in the loop leaves the loop, and the run. *)
Lemma for_each_throws {A : Type} (body : A -> M unit) (x : A)
  (rest : list A) (s s' : State) (e : Exn) :
  body x s = Throw e s' -> for_each (x :: rest) body s = Throw e s'.
Proof. intros H. simpl. unfold bind. now rewrite H. Qed.

(** C5 (the code departs from the claim).  Two runs over the data
    directory with the single folder [FOO].  In the first [data.json] is
    missing: the error is pushed and [validate] is then left by the
    exception of [readFileSync].  In the second the entry is valid and the
    [getCode] read fails: [validate] is left by that exception.  No report
    is returned in either. *)
Theorem load_and_existence_failures_abort_the_run :
  run_validate
    (sample_world no_files (foo_on "sepolia" plain_token)
       ExpectedMismatches.empty accepted (Ok empty_coingecko) (Ok "0x60")
       (Ok 18%Z) (Ok "FOO") (Ok "Foo"))
    "data" None
  = Throw (ENOENT "data/FOO/data.json")
      {| results :=
           [diag error "data file data/FOO/data.json does not exist"];
         calls := [] |}
  /\
  run_validate
    (sample_world only_data_json (foo_on "sepolia" plain_token)
       ExpectedMismatches.empty accepted (Ok empty_coingecko)
       (Err network_down) (Ok 18%Z) (Ok "FOO") (Ok "Foo"))
    "data" None
  = Throw network_down
      {| results := [];
         calls := [getCode sepolia_provider sample_address] |}.
Proof. split; reflexivity. Qed.

(** ** Entries that fail the schema *)

Lemma for_each_push (folder : string) (errors : list ValidationError.t)
  (s : State) :
  for_each errors (fun e => push error (schema_message folder e)) s =
    Normal tt (with_results s (schema_diagnostics folder errors)).
Proof.
  revert s. induction errors as [|e errors IH]; intros s; simpl.
  - unfold ret. now rewrite with_results_nil.
  - unfold bind. rewrite push_run, IH, with_results_app. reflexivity.
Qed.

Lemma load_expectedMismatches_loaded (w : World) (datadir folder : string)
  (data : TokenData.t) (em : ExpectedMismatches.t) (s : State) :
  loads w datadir folder data em ->
  load_expectedMismatches w datadir folder s = Normal em s.
Proof.
  intros [_ H]. unfold load_expectedMismatches, existsSync, readFileSync.
  destruct (files w (path_join w [datadir; folder; "expectedMismatches.json"]))
    as [text|].
  - unfold bind. simpl. rewrite H. reflexivity.
  - subst em. reflexivity.
Qed.

(** The body of the folder loop once the files have loaded: the logo
    diagnostic, then either the schema errors or the token loop. *)
Lemma validate_folder_loaded (w : World) (cg : option CgList.t)
  (datadir folder : string) (data : TokenData.t)
  (em : ExpectedMismatches.t) (s : State) :
  loads w datadir folder data em ->
  validate_folder w cg datadir folder s =
    (if negb (ValidatorResult.valid (schema_validate w data)) then
       for_each (ValidatorResult.errors (schema_validate w data))
                (fun e => push error (schema_message folder e))
     else
       for_each (TokenData.tokens data)
                (fun entry =>
                   validate_token w cg folder data em (fst entry) (snd entry)))
      (with_results s (logo_diagnostics w datadir folder)).
Proof.
  intros Hl. pose proof Hl as [[text [Hf Hp]] _].
  unfold validate_folder, bind, existsSync, readFileSync.
  rewrite Hf. simpl. rewrite Hp. simpl.
  unfold logo_diagnostics.
  destruct (Nat.eqb _ 1); simpl.
  - rewrite with_results_nil.
    now rewrite (load_expectedMismatches_loaded w datadir folder data em s Hl).
  - now rewrite (load_expectedMismatches_loaded w datadir folder data em _ Hl).
Qed.

(** C6, amended.  For an entry whose files load ([data.json] exists and
    parses, [expectedMismatches.json] is absent or parses) and whose data
    the schema validator rejects: the folder adds one error per schema violation,
    each made of the folder, the property path and the message, after the
    logo diagnostic; no RPC read is made and no other diagnostic is added,
    whatever the chains would answer; and the loop goes on with the
    remaining folders from that state. *)
Theorem schema_failure_reports_every_violation_and_skips_chain_checks
  (w : World) (cg : option CgList.t) (datadir folder : string)
  (data : TokenData.t) (em : ExpectedMismatches.t) (s : State)
  (rest : list string) :
  loads w datadir folder data em ->
  ValidatorResult.valid (schema_validate w data) = false ->
  validate_folder w cg datadir folder s =
    Normal tt
      {| results :=
           results s ++ logo_diagnostics w datadir folder
             ++ schema_diagnostics folder
                  (ValidatorResult.errors (schema_validate w data));
         calls := calls s |}
  /\
  for_each (folder :: rest) (validate_folder w cg datadir) s =
    for_each rest (validate_folder w cg datadir)
      {| results :=
           results s ++ logo_diagnostics w datadir folder
             ++ schema_diagnostics folder
                  (ValidatorResult.errors (schema_validate w data));
         calls := calls s |}.
Proof.
  intros Hl Hv.
  assert (H : validate_folder w cg datadir folder s =
    Normal tt
      {| results :=
           results s ++ logo_diagnostics w datadir folder
             ++ schema_diagnostics folder
                  (ValidatorResult.errors (schema_validate w data));
         calls := calls s |}).
  { rewrite (validate_folder_loaded w cg datadir folder data em s Hl), Hv.
    simpl. rewrite for_each_push, with_results_app. reflexivity. }
  split; [exact H|].
  simpl. unfold bind. now rewrite H.
Qed.

Lemma schema_failure_reports_every_violation_and_skips_chain_checks_witness :
  validate_folder
    (sample_world only_data_json (foo_on "sepolia" plain_token)
       ExpectedMismatches.empty rejected (Ok empty_coingecko) (Ok "0x")
       (Ok 6%Z) (Ok "BAR") (Err network_down))
    (Some empty_coingecko) "data" "FOO" initial
  = Normal tt
      {| results :=
           [diag error
              "FOO: instance.description: does not meet maximum length of 1000";
            diag error
              "FOO: instance.decimals: is not of a type(s) integer"];
         calls := [] |}.
Proof.
  apply (proj1
           (schema_failure_reports_every_violation_and_skips_chain_checks
              (sample_world only_data_json (foo_on "sepolia" plain_token)
                 ExpectedMismatches.empty rejected (Ok empty_coingecko)
                 (Ok "0x") (Ok 6%Z) (Ok "BAR") (Err network_down))
              (Some empty_coingecko) "data" "FOO"
              (foo_on "sepolia" plain_token) ExpectedMismatches.empty
              initial []
              (conj (ex_intro _ "{}" (conj eq_refl eq_refl)) eq_refl)
              eq_refl)).
Defined.

(** ** Exempt entries *)

Lemma exempt_guard (folder : string) (data : TokenData.t) :
  exempt folder data ->
  negb (String.eqb folder "ETH") && not_nonstandard data = false.
Proof.
  intros [H|H].
  - subst folder. reflexivity.
  - unfold not_nonstandard. rewrite H. apply andb_false_r.
Qed.

Lemma validate_token_exempt (w : World) (cg : option CgList.t)
  (folder : string) (data : TokenData.t) (em : ExpectedMismatches.t)
  (chain : string) (token : Token.t) (s : State) :
  exempt folder data ->
  validate_token w cg folder data em chain token s = Normal tt s.
Proof.
  intros H. unfold validate_token. now rewrite (exempt_guard folder data H).
Qed.

Lemma for_each_skip {A : Type} (body : A -> M unit) (l : list A) (s : State) :
  (forall x s', body x s' = Normal tt s') ->
  for_each l body s = Normal tt s.
Proof.
  intros H. induction l as [|x l IH]; simpl.
  - reflexivity.
  - unfold bind. now rewrite H.
Qed.

(** C9.  For a loaded entry (its files load and its data pass the schema)
    whose folder is [ETH] or whose [nonstandard] flag is true: every
    (chain, token) pair is skipped with the state unchanged, whatever the
    chain key and the token are; the whole folder adds only the logo
    diagnostic and makes no RPC read. *)
Theorem exempt_entries_are_never_chain_verified
  (w : World) (cg : option CgList.t) (datadir folder : string)
  (data : TokenData.t) (em : ExpectedMismatches.t) (s : State) :
  loads w datadir folder data em ->
  ValidatorResult.valid (schema_validate w data) = true ->
  exempt folder data ->
  (forall chain token s',
      validate_token w cg folder data em chain token s' = Normal tt s')
  /\
  validate_folder w cg datadir folder s =
    Normal tt
      {| results := results s ++ logo_diagnostics w datadir folder;
         calls := calls s |}.
Proof.
  intros Hl Hv He.
  assert (Ht : forall chain token s',
             validate_token w cg folder data em chain token s' = Normal tt s')
    by (intros; now apply validate_token_exempt).
  split; [exact Ht|].
  rewrite (validate_folder_loaded w cg datadir folder data em s Hl), Hv.
  simpl. apply for_each_skip. intros [chain token] s'. apply Ht.
Qed.

Lemma exempt_entries_are_never_chain_verified_witness :
  validate_folder
    (sample_world only_data_json foo_nonstandard ExpectedMismatches.empty
       accepted (Ok empty_coingecko) (Ok "0x") (Ok 6%Z) (Ok "BAR")
       (Err network_down))
    (Some empty_coingecko) "data" "FOO" initial
  = Normal tt initial.
Proof.
  apply (proj2
           (exempt_entries_are_never_chain_verified
              (sample_world only_data_json foo_nonstandard
                 ExpectedMismatches.empty accepted (Ok empty_coingecko)
                 (Ok "0x") (Ok 6%Z) (Ok "BAR") (Err network_down))
              (Some empty_coingecko) "data" "FOO" foo_nonstandard
              ExpectedMismatches.empty initial
              (conj (ex_intro _ "{}" (conj eq_refl eq_refl)) eq_refl)
              eq_refl (or_intror eq_refl))).
Defined.

(** ** The CoinGecko cross-check *)

(** The block of lines 195-208, taken alone, on a list that was fetched:
    on chain [ethereum] an address absent from the list (compared in
    lower case) adds one warning, a present one adds nothing; on any other
    chain the block adds nothing. *)
Lemma check_coingecko_block (cg : CgList.t) (folder chain : string)
  (token : Token.t) (s : State) :
  check_coingecko (Some cg) folder chain token s =
    Normal tt
      (with_results s
         (if String.eqb chain "ethereum"
          then
            if existsb
                 (fun t => String.eqb (toLowerCase (CgToken.address t))
                                      (toLowerCase (Token.address token)))
                 (CgList.tokens cg)
            then []
            else [diag warning
                    (token_message folder chain token
                       " not found on CoinGecko token list")]
          else [])).
Proof.
  unfold check_coingecko, cg_find.
  destruct (String.eqb chain "ethereum").
  - destruct (find _ (CgList.tokens cg)) as [t|] eqn:Hfind.
    + apply find_some in Hfind as [Hin Heq].
      assert (Hex : existsb
                (fun t => String.eqb (toLowerCase (CgToken.address t))
                                     (toLowerCase (Token.address token)))
                (CgList.tokens cg) = true)
        by (apply existsb_exists; eauto).
      rewrite Hex. unfold ret. now rewrite with_results_nil.
    + assert (Hex : existsb
                (fun t => String.eqb (toLowerCase (CgToken.address t))
                                     (toLowerCase (Token.address token)))
                (CgList.tokens cg) = false).
      { apply not_true_is_false. intros Hex.
        apply existsb_exists in Hex as [t [Hin Heq]].
        now rewrite (find_none _ _ Hfind t Hin) in Heq. }
      rewrite Hex. reflexivity.
  - unfold ret. now rewrite with_results_nil.
Qed.

(** The chains of [NETWORK_DATA] are [specular] and [sepolia]. *)
Lemma registered_chain (chain : string) (net : Network.t) :
  lookup chain NETWORK_DATA = Some net ->
  chain = "specular" \/ chain = "sepolia".
Proof.
  cbv [lookup NETWORK_DATA].
  destruct (String.eqb "specular" chain) eqn:H1.
  - apply String.eqb_eq in H1. auto.
  - destruct (String.eqb "sepolia" chain) eqn:H2.
    + apply String.eqb_eq in H2. auto.
    + discriminate.
Qed.

Lemma registered_chain_is_not_ethereum (chain : string) (net : Network.t) :
  lookup chain NETWORK_DATA = Some net ->
  String.eqb chain "ethereum" = false.
Proof.
  intros H. destruct (registered_chain chain net H); subst; reflexivity.
Qed.

(** The fetched list has no influence on the checks of a token: the
    block that reads it runs only after the registry lookup, and the
    registry has no [ethereum]. *)
Lemma coingecko_list_is_never_consulted (w : World)
  (cg cg' : option CgList.t) (folder : string) (data : TokenData.t)
  (em : ExpectedMismatches.t) (chain : string) (token : Token.t)
  (s : State) :
  validate_token w cg folder data em chain token s =
  validate_token w cg' folder data em chain token s.
Proof.
  unfold validate_token.
  destruct (negb (String.eqb folder "ETH") && not_nonstandard data);
    [|reflexivity].
  destruct (lookup chain NETWORK_DATA) as [net|] eqn:Hl; [|reflexivity].
  unfold check_coingecko.
  now rewrite (registered_chain_is_not_ethereum chain net Hl).
Qed.

Lemma for_each_ext {A : Type} (f g : A -> M unit) (l : list A) :
  (forall x s, f x s = g x s) ->
  forall s, for_each l f s = for_each l g s.
Proof.
  intros H. induction l as [|x l IH]; intros s; simpl.
  - reflexivity.
  - unfold bind. rewrite H. destruct (g x s); [apply IH | reflexivity].
Qed.

Lemma coingecko_list_is_never_consulted_in_folder (w : World)
  (cg cg' : option CgList.t) (datadir folder : string) (s : State) :
  validate_folder w cg datadir folder s =
  validate_folder w cg' datadir folder s.
Proof.
  unfold validate_folder, bind.
  repeat match goal with
         | |- match ?m with Normal _ _ => _ | Throw _ _ => _ end = _ =>
             destruct m; [|reflexivity]
         end.
  match goal with
  | |- (if ?b then _ else _) _ = _ => destruct b; [reflexivity|]
  end.
  apply for_each_ext. intros. apply coingecko_list_is_never_consulted.
Qed.



(** ** Diagnostics are only appended *)

Lemma appends_ret {A : Type} (a : A) : appends (ret a).
Proof. intros s. exists []. simpl. now rewrite app_nil_r. Qed.

Lemma appends_throw {A : Type} (e : Exn) : appends (@throw A e).
Proof. intros s. exists []. simpl. now rewrite app_nil_r. Qed.

Lemma appends_lift {A : Type} (r : result A) : appends (lift r).
Proof. destruct r; [apply appends_ret | apply appends_throw]. Qed.

Lemma appends_push (t : ResultType) (msg : string) : appends (push t msg).
Proof. intros s. now exists [diag t msg]. Qed.

Lemma appends_rpc {A : Type} (c : Call) (answer : list Call -> result A) :
  appends (rpc c answer).
Proof.
  intros s. unfold rpc.
  destruct (answer (calls s)); exists []; simpl; now rewrite app_nil_r.
Qed.

Lemma appends_bind {A B : Type} (m : M A) (k : A -> M B) :
  appends m -> (forall a, appends (k a)) -> appends (bind m k).
Proof.
  intros Hm Hk s. unfold bind. specialize (Hm s).
  destruct (m s) as [a s1|e s1].
  - destruct Hm as [d1 H1]. specialize (Hk a s1).
    destruct (k a s1) as [b s2|e s2]; destruct Hk as [d2 H2];
      exists (d1 ++ d2); now rewrite H2, H1, app_assoc.
  - exact Hm.
Qed.

Lemma appends_try_catch {A : Type} (m : M A) (h : Exn -> M A) :
  appends m -> (forall e, appends (h e)) -> appends (try_catch m h).
Proof.
  intros Hm Hh s. unfold try_catch. specialize (Hm s).
  destruct (m s) as [a s1|e s1].
  - exact Hm.
  - destruct Hm as [d1 H1]. specialize (Hh e s1).
    destruct (h e s1) as [b s2|e2 s2]; destruct Hh as [d2 H2];
      exists (d1 ++ d2); now rewrite H2, H1, app_assoc.
Qed.

Lemma appends_when (b : bool) (m : M unit) : appends m -> appends (when b m).
Proof. destruct b; [trivial | intros _; apply appends_ret]. Qed.

Lemma appends_for_each {A : Type} (l : list A) (body : A -> M unit) :
  (forall x, appends (body x)) -> appends (for_each l body).
Proof.
  intros H. induction l as [|x l IH]; simpl.
  - apply appends_ret.
  - apply appends_bind; [apply H | intros _; exact IH].
Qed.

Create HintDb appends.

#[local] Hint Resolve appends_ret appends_throw appends_lift appends_push
  appends_rpc appends_when : appends.

Ltac appends_step :=
  first [ apply appends_bind; [|intro]
        | apply appends_try_catch; [|intro]
        | apply appends_for_each; intro
        | solve [auto with appends] ].

Lemma appends_validate_token (w : World) (cg : option CgList.t)
  (folder : string) (data : TokenData.t) (em : ExpectedMismatches.t)
  (chain : string) (token : Token.t) :
  appends (validate_token w cg folder data em chain token).
Proof.
  unfold validate_token.
  destruct (negb (String.eqb folder "ETH") && not_nonstandard data);
    [|apply appends_ret].
  destruct (lookup chain NETWORK_DATA) as [net|].
  2:{ destruct (Object_prototype_has w chain);
        [destruct (Contract_without_provider w (Token.address token))|];
        apply appends_throw. }
  unfold check_exists, check_decimals, check_symbol, check_name,
    check_coingecko.
  destruct (overrides_decimals token), (overrides_symbol token),
    (overrides_name token), (String.eqb chain "ethereum"), cg as [cg|];
    try destruct (cg_find cg token);
    repeat appends_step.
Qed.

Lemma appends_validate_folder (w : World) (cg : option CgList.t)
  (datadir folder : string) :
  appends (validate_folder w cg datadir folder).
Proof.
  unfold validate_folder, load_expectedMismatches.
  apply appends_bind; [auto with appends|intros _].
  apply appends_bind; [auto with appends|intros text].
  apply appends_bind; [auto with appends|intros data].
  apply appends_bind; [auto with appends|intros _].
  apply appends_bind.
  - destruct (existsSync w _); repeat appends_step.
  - intros em.
    destruct (negb (ValidatorResult.valid (schema_validate w data)));
      apply appends_for_each; intros x;
      [apply appends_push | apply appends_validate_token].
Qed.

Lemma appends_validate_final (w : World) (datadir : string) :
  appends (validate_final w datadir).
Proof.
  unfold validate_final.
  apply appends_bind; [auto with appends|intros compiled].
  apply appends_bind.
  - destruct (ajv_errors w compiled); auto with appends.
  - intros _ s. exists []. simpl. now rewrite app_nil_r.
Qed.

(** What [validate] returns is the array [results] at that moment. *)
Lemma validate_final_returns_results (w : World) (datadir : string)
  (s st : State) (rs : list ValidationResult) :
  validate_final w datadir s = Normal rs st -> rs = results st.
Proof.
  unfold validate_final, bind, lift.
  destruct (generate w datadir) as [l|e]; simpl; [|discriminate].
  destruct (ajv_errors w l); simpl; intros H; injection H as <- <-;
    reflexivity.
Qed.

(** ** A failed fetch of the CoinGecko list *)

Lemma load_coingecko_failed (w : World) (e : Exn) (s : State) :
  fetch_coingecko w = Err e ->
  load_coingecko w s = Normal None (with_results s [fetch_failed]).
Proof.
  intros H. unfold load_coingecko, try_catch, bind, lift. now rewrite H.
Qed.

Lemma load_coingecko_fetched (w : World) (cg : CgList.t) (s : State) :
  fetch_coingecko w = Ok cg -> load_coingecko w s = Normal (Some cg) s.
Proof.
  intros H. unfold load_coingecko, try_catch, bind, lift. now rewrite H.
Qed.

(** C7.  When the fetch of the CoinGecko list fails: loading the list
    returns [undefined] and adds exactly one warning; with the list
    undefined the cross-check of every token is a no-op; the run goes on
    with the folders and the final check from the state holding that one
    warning (the failure does not leave [validate]); and a run that
    returns has that warning as its first diagnostic. *)
Theorem fetch_failure_is_one_warning_and_skips_the_cross_check
  (w : World) (datadir : string) (tokens : option (list string)) (e : Exn) :
  fetch_coingecko w = Err e ->
  (forall s,
      load_coingecko w s = Normal None (with_results s [fetch_failed]))
  /\
  (forall folder chain token s,
      check_coingecko None folder chain token s = Normal tt s)
  /\
  run_validate w datadir tokens =
    match list_folders w datadir tokens with
    | Ok folders =>
        (for_each folders (validate_folder w None datadir) ;;;
         validate_final w datadir)
          {| results := [fetch_failed]; calls := [] |}
    | Err e' => Throw e' initial
    end
  /\
  (forall rs st,
      run_validate w datadir tokens = Normal rs st ->
      exists rest, rs = fetch_failed :: rest).
Proof.
  intros Hf.
  assert (Hrun : run_validate w datadir tokens =
    match list_folders w datadir tokens with
    | Ok folders =>
        (for_each folders (validate_folder w None datadir) ;;;
         validate_final w datadir)
          {| results := [fetch_failed]; calls := [] |}
    | Err e' => Throw e' initial
    end).
  { unfold run_validate, validate.
    destruct (list_folders w datadir tokens) as [folders|e']; [|reflexivity].
    unfold bind at 1. simpl. unfold bind at 1.
    now rewrite (load_coingecko_failed w e initial Hf). }
  split; [intros s; now apply load_coingecko_failed with (e := e)|].
  split.
  { intros folder chain token s. unfold check_coingecko.
    now destruct (String.eqb chain "ethereum"). }
  split; [exact Hrun|].
  intros rs st. rewrite Hrun.
  destruct (list_folders w datadir tokens) as [folders|e']; [|discriminate].
  intros H.
  assert (Happ : appends
            (for_each folders (validate_folder w None datadir) ;;;
             validate_final w datadir)).
  { apply appends_bind.
    - apply appends_for_each. intros x. apply appends_validate_folder.
    - intros _. apply appends_validate_final. }
  specialize (Happ {| results := [fetch_failed]; calls := [] |}).
  rewrite H in Happ. destruct Happ as [ds Hds]. simpl in Hds.
  unfold bind in H.
  destruct (for_each folders (validate_folder w None datadir) _)
    as [[] s1|e1 s1]; [|discriminate].
  apply validate_final_returns_results in H. subst rs.
  exists ds. exact Hds.
Qed.

Lemma fetch_failure_is_one_warning_and_skips_the_cross_check_witness :
  run_validate
    (sample_world only_data_json (foo_on "sepolia" plain_token)
       ExpectedMismatches.empty accepted (Err network_down) (Ok "0x60")
       (Ok 18%Z) (Ok "FOO") (Ok "Foo"))
    "data" None
  = Normal [fetch_failed]
      {| results := [fetch_failed];
         calls := [getCode sepolia_provider sample_address;
                   call_decimals sepolia_provider sample_address;
                   call_symbol sepolia_provider sample_address;
                   call_name sepolia_provider sample_address] |}.
Proof.
  rewrite (proj1 (proj2 (proj2
             (fetch_failure_is_one_warning_and_skips_the_cross_check
                (sample_world only_data_json (foo_on "sepolia" plain_token)
                   ExpectedMismatches.empty accepted (Err network_down)
                   (Ok "0x60") (Ok 18%Z) (Ok "FOO") (Ok "Foo"))
                "data" None network_down eq_refl)))).
  reflexivity.
Defined.

(** ** The requested folders *)

Lemma insert_permutation (cmp : string -> string -> Z) (x : string)
  (l : list string) :
  Permutation (x :: l) (insert cmp x l).
Proof.
  induction l as [|y l IH]; simpl.
  - apply Permutation_refl.
  - destruct (cmp x y <=? 0)%Z.
    + apply Permutation_refl.
    + eapply perm_trans; [apply perm_swap|]. now apply perm_skip.
Qed.

Lemma sort_permutation (cmp : string -> string -> Z) (l : list string) :
  Permutation l (sort cmp l).
Proof.
  induction l as [|x l IH]; simpl.
  - apply perm_nil.
  - eapply perm_trans; [apply perm_skip, IH|]. apply insert_permutation.
Qed.

Lemma list_folders_filter (w : World) (datadir : string)
  (tokens : option (list string)) (names : list string) :
  readdirSync w datadir = Ok names ->
  list_folders w datadir tokens =
    Ok (filter (requested tokens) (sort (folder_order w) names)).
Proof. intros H. unfold list_folders. now rewrite H. Qed.

Lemma filter_all {A : Type} (l : list A) : filter (fun _ => true) l = l.
Proof. induction l as [|x l IH]; simpl; congruence. Qed.

Lemma filter_none {A : Type} (l : list A) : filter (fun _ => false) l = [].
Proof. induction l as [|x l IH]; simpl; congruence. Qed.

(** C10.  Over a readable data directory holding [names]: with the empty
    token list no folder passes the filter, and the run makes no RPC read
    and returns (when the generator returns) exactly the fetch warning, if
    any, followed by the final-list error, if any; with a null token list
    the folders are all of [names], sorted; in general a folder is
    processed exactly when it is in the directory and the token list is
    null or includes it. *)
Theorem empty_token_list_selects_no_folder
  (w : World) (datadir : string) (names : list string) :
  readdirSync w datadir = Ok names ->
  list_folders w datadir (Some []) = Ok []
  /\
  run_validate w datadir (Some []) =
    match generate w datadir with
    | Ok compiled =>
        Normal (fetch_diagnostics w ++ final_diagnostics w compiled)
          {| results := fetch_diagnostics w ++ final_diagnostics w compiled;
             calls := [] |}
    | Err e => Throw e {| results := fetch_diagnostics w; calls := [] |}
    end
  /\
  (list_folders w datadir None = Ok (sort (folder_order w) names)
   /\ Permutation names (sort (folder_order w) names))
  /\
  (forall tokens folders folder,
      list_folders w datadir tokens = Ok folders ->
      (In folder folders <->
       In folder names /\
       (tokens = None \/ exists l, tokens = Some l /\ In folder l))).
Proof.
  intros Hr.
  assert (He : list_folders w datadir (Some []) = Ok []).
  { rewrite (list_folders_filter w datadir (Some []) names Hr).
    simpl. now rewrite filter_none. }
  split; [exact He|]. split.
  { unfold run_validate, validate. rewrite He.
    unfold bind at 1. simpl. unfold bind at 1.
    unfold fetch_diagnostics, final_diagnostics.
    destruct (fetch_coingecko w) as [cg|e] eqn:Hf.
    - rewrite (load_coingecko_fetched w cg initial Hf). simpl.
      unfold bind, validate_final, bind, lift.
      destruct (generate w datadir) as [compiled|e]; simpl; [|reflexivity].
      destruct (ajv_errors w compiled); reflexivity.
    - rewrite (load_coingecko_failed w e initial Hf). simpl.
      unfold bind, validate_final, bind, lift.
      destruct (generate w datadir) as [compiled|e']; simpl; [|reflexivity].
      destruct (ajv_errors w compiled); reflexivity. }
  split.
  { split; [|apply sort_permutation].
    rewrite (list_folders_filter w datadir None names Hr).
    simpl. now rewrite filter_all. }
  intros tokens folders folder H.
  rewrite (list_folders_filter w datadir tokens names Hr) in H.
  injection H as <-. rewrite filter_In.
  assert (Hin : In folder (sort (folder_order w) names) <-> In folder names).
  { split; apply Permutation_in;
      [apply Permutation_sym|]; apply sort_permutation. }
  rewrite Hin. apply and_iff_compat_l.
  destruct tokens as [l|]; simpl.
  - unfold includes. rewrite existsb_exists. split.
    + intros [x [Hx Heq]]. apply String.eqb_eq in Heq. subst x.
      right. now exists l.
    + intros [Hn|[l' [Hl Hx]]]; [discriminate|].
      injection Hl as <-. exists folder. split; [exact Hx|].
      apply String.eqb_refl.
  - split; auto.
Qed.

Lemma empty_token_list_selects_no_folder_witness :
  run_validate
    (sample_world only_data_json (foo_on "sepolia" plain_token)
       ExpectedMismatches.empty accepted (Err network_down) (Ok "0x")
       (Ok 6%Z) (Ok "BAR") (Ok "Bar"))
    "data" (Some [])
  = Normal [fetch_failed] {| results := [fetch_failed]; calls := [] |}.
Proof.
  rewrite (proj1 (proj2
             (empty_token_list_selects_no_folder
                (sample_world only_data_json (foo_on "sepolia" plain_token)
                   ExpectedMismatches.empty accepted (Err network_down)
                   (Ok "0x") (Ok 6%Z) (Ok "BAR") (Ok "Bar"))
                "data" ["FOO"] eq_refl))).
  reflexivity.
Defined.

(** * Further properties of [validate] *)

(** ** The reads of the three fields *)

(** X1.  For a field that is not overridden, a read that throws is caught:
    the check returns, having logged the read and added exactly one error,
    "failed to get <field>" (lines 132-137, 157-162, 182-187). *)
Theorem failed_read_is_caught_as_one_error
  (f : Field) (w : World) (p : StaticJsonRpcProvider) (folder : string)
  (data : TokenData.t) (em : ExpectedMismatches.t) (chain : string)
  (token : Token.t) (s : State) :
  overridden f token = false ->
  field_read_fails f w (calls s) p (Token.address token) = true ->
  check_field f w p folder data em chain token s =
    Normal tt
      (with_results (after_call s (field_call f p (Token.address token)))
         [diag error
            (token_message folder chain token
               (" failed to get " ++ field_word f))]).
Proof.
  intros Hov Hfail. destruct f as [|[|]]; simpl in *.
  - unfold check_decimals.
    destruct (overrides_decimals token); [discriminate|].
    unfold try_catch, bind, rpc.
    destruct (rpc_decimals w (calls s) p (Token.address token));
      [discriminate|reflexivity].
  - unfold check_symbol.
    destruct (overrides_symbol token); [discriminate|].
    unfold try_catch, bind, rpc.
    destruct (rpc_symbol w (calls s) p (Token.address token));
      [discriminate|reflexivity].
  - unfold check_name.
    destruct (overrides_name token); [discriminate|].
    unfold try_catch, bind, rpc.
    destruct (rpc_name w (calls s) p (Token.address token));
      [discriminate|reflexivity].
Qed.

Lemma failed_read_is_caught_as_one_error_witness :
  check_field (Text Name)
    (sample_world only_data_json (foo_on "sepolia" plain_token)
       ExpectedMismatches.empty accepted (Ok empty_coingecko) (Ok "0x60")
       (Ok 18%Z) (Ok "FOO") (Err network_down))
    sepolia_provider "FOO" (foo_on "sepolia" plain_token)
    ExpectedMismatches.empty "sepolia" plain_token initial
  = Normal tt
      {| results :=
           [diag error
              "FOO on chain sepolia token 0xAAAAaaaaAAAAaaaaAAAAaaaaAAAAaaaaAAAAaaaa failed to get name"];
         calls := [call_name sepolia_provider sample_address] |}.
Proof.
  apply (failed_read_is_caught_as_one_error (Text Name)
           (sample_world only_data_json (foo_on "sepolia" plain_token)
              ExpectedMismatches.empty accepted (Ok empty_coingecko)
              (Ok "0x60") (Ok 18%Z) (Ok "FOO") (Err network_down))
           sepolia_provider "FOO" (foo_on "sepolia" plain_token)
           ExpectedMismatches.empty "sepolia" plain_token initial
           eq_refl eq_refl).
Defined.

(** X2.  For a field that is not overridden, a read that returns the
    declared value adds no diagnostic, whatever the expected-mismatches
    record holds: only the read is logged. *)
Theorem matching_read_is_silent
  (f : Field) (w : World) (p : StaticJsonRpcProvider) (folder : string)
  (data : TokenData.t) (em : ExpectedMismatches.t) (chain : string)
  (token : Token.t) (s : State) :
  overridden f token = false ->
  field_read_matches f w (calls s) p (Token.address token) data = true ->
  check_field f w p folder data em chain token s =
    Normal tt (after_call s (field_call f p (Token.address token))).
Proof.
  intros Hov Hm. destruct f as [|[|]]; simpl in *.
  - unfold check_decimals.
    destruct (overrides_decimals token); [discriminate|].
    unfold try_catch, bind, rpc.
    destruct (rpc_decimals w (calls s) p (Token.address token));
      [|discriminate].
    rewrite Hm. reflexivity.
  - unfold check_symbol.
    destruct (overrides_symbol token); [discriminate|].
    unfold try_catch, bind, rpc.
    destruct (rpc_symbol w (calls s) p (Token.address token));
      [|discriminate].
    rewrite Hm. reflexivity.
  - unfold check_name.
    destruct (overrides_name token); [discriminate|].
    unfold try_catch, bind, rpc.
    destruct (rpc_name w (calls s) p (Token.address token));
      [|discriminate].
    rewrite Hm. reflexivity.
Qed.

Lemma matching_read_is_silent_witness :
  check_field Decimals
    (sample_world only_data_json (foo_on "sepolia" plain_token) approved
       accepted (Ok empty_coingecko) (Ok "0x60") (Ok 18%Z) (Ok "FOO")
       (Ok "Foo"))
    sepolia_provider "FOO" (foo_on "sepolia" plain_token) approved "sepolia"
    plain_token initial
  = Normal tt
      {| results := [];
         calls := [call_decimals sepolia_provider sample_address] |}.
Proof.
  apply (matching_read_is_silent Decimals
           (sample_world only_data_json (foo_on "sepolia" plain_token)
              approved accepted (Ok empty_coingecko) (Ok "0x60") (Ok 18%Z)
              (Ok "FOO") (Ok "Foo"))
           sepolia_provider "FOO" (foo_on "sepolia" plain_token) approved
           "sepolia" plain_token initial eq_refl eq_refl).
Defined.

Ltac outcome_with ds :=
  exists ds; rewrite ?app_nil_r; split; [reflexivity | simpl; lia].

(** The outcome of a field check in every case: it returns; it logs the
    read exactly when the field is not overridden; it adds at most one
    diagnostic, which is a warning exactly when the field is overridden. *)
Lemma check_field_outcome
  (f : Field) (w : World) (p : StaticJsonRpcProvider) (folder : string)
  (data : TokenData.t) (em : ExpectedMismatches.t) (chain : string)
  (token : Token.t) (s : State) :
  exists ds,
    check_field f w p folder data em chain token s =
      Normal tt {| results := results s ++ ds;
                   calls := calls s ++ reads_of f p token |}
    /\ length ds <= 1
    /\ length (filter is_warning ds) = (if overridden f token then 1 else 0).
Proof.
  unfold reads_of.
  destruct f as [|[|]]; simpl.
  - unfold check_decimals.
    destruct (overrides_decimals token).
    + outcome_with
        [diag warning
           (token_message folder chain token " has overridden decimals")].
    + unfold try_catch, bind, rpc.
      destruct (rpc_decimals w (calls s) p (Token.address token)) as [v|e].
      * destruct (negb (Z.eqb (TokenData.decimals data) v)); simpl.
        -- outcome_with
             [diag error
                (token_message folder chain token " has incorrect decimals")].
        -- outcome_with (@nil ValidationResult).
      * outcome_with
          [diag error
             (token_message folder chain token " failed to get decimals")].
  - unfold check_symbol.
    destruct (overrides_symbol token).
    + outcome_with
        [diag warning
           (token_message folder chain token " has overridden symbol")].
    + unfold try_catch, bind, rpc.
      destruct (rpc_symbol w (calls s) p (Token.address token)) as [v|e].
      * destruct (negb (String.eqb (TokenData.symbol data) v)
                  && strict_neq (ExpectedMismatches.symbol em)
                       (TokenData.symbol data)); simpl.
        -- outcome_with
             [diag error
                (token_message folder chain token " has incorrect symbol")].
        -- outcome_with (@nil ValidationResult).
      * outcome_with
          [diag error
             (token_message folder chain token " failed to get symbol")].
  - unfold check_name.
    destruct (overrides_name token).
    + outcome_with
        [diag warning
           (token_message folder chain token " has overridden name")].
    + unfold try_catch, bind, rpc.
      destruct (rpc_name w (calls s) p (Token.address token)) as [v|e].
      * destruct (negb (String.eqb (TokenData.name data) v)
                  && strict_neq (ExpectedMismatches.name em)
                       (TokenData.name data)); simpl.
        -- outcome_with
             [diag error
                (token_message folder chain token " has incorrect name")].
        -- outcome_with (@nil ValidationResult).
      * outcome_with
          [diag error
             (token_message folder chain token " failed to get name")].
Qed.

(** X3.  A field check never throws: whatever the world answers, it
    returns, with at most one diagnostic added and at most one read made
    (none when the field is overridden). *)
Theorem field_check_never_throws
  (f : Field) (w : World) (p : StaticJsonRpcProvider) (folder : string)
  (data : TokenData.t) (em : ExpectedMismatches.t) (chain : string)
  (token : Token.t) (s : State) :
  exists ds,
    check_field f w p folder data em chain token s =
      Normal tt {| results := results s ++ ds;
                   calls := calls s ++ reads_of f p token |}
    /\ length ds <= 1
    /\ length (reads_of f p token) <= 1.
Proof.
  destruct (check_field_outcome f w p folder data em chain token s)
    as [ds [H [Hl _]]].
  exists ds. repeat split; trivial.
  unfold reads_of. destruct (overridden f token); simpl; lia.
Qed.

(** ** The checks of one token as a whole *)

(** After a successful [getCode] on a registered chain the three field
    checks and the CoinGecko block run from the state holding the read and,
    for empty bytecode, the error. *)
Lemma validate_token_after_getCode (w : World) (cg : option CgList.t)
  (folder : string) (data : TokenData.t) (em : ExpectedMismatches.t)
  (chain : string) (token : Token.t) (net : Network.t) (s : State)
  (code : string) :
  verified folder data ->
  lookup chain NETWORK_DATA = Some net ->
  rpc_getCode w (calls s) (Network.provider net) (Token.address token)
    = Ok code ->
  validate_token w cg folder data em chain token s =
    (check_field Decimals w (Network.provider net) folder data em chain token
       ;;;
     check_field (Text Symbol) w (Network.provider net) folder data em chain
       token ;;;
     check_field (Text Name) w (Network.provider net) folder data em chain
       token ;;;
     check_coingecko cg folder chain token)
      {| results :=
           results s ++
           (if String.eqb code "0x"
            then [diag error
                    (token_message folder chain token " does not exist")]
            else []);
         calls :=
           calls s ++ [getCode (Network.provider net) (Token.address token)]
      |}.
Proof.
  intros [Hf Hn] Hl Hc.
  rewrite (validate_token_verified w cg folder data em chain token net
             Hf Hn Hl).
  unfold bind at 1. unfold check_exists, bind at 1.
  rewrite (rpc_ok _ _ _ _ Hc).
  destruct (String.eqb code "0x"); simpl.
  - reflexivity.
  - unfold ret, after_call. now rewrite app_nil_r.
Qed.

(** X4.  The existence check does not short-circuit: when [getCode]
    returns, the decimals, symbol and name checks run in that order
    whether or not the bytecode is empty; empty bytecode (["0x"]) adds the
    error "does not exist" in front of their diagnostics and any other
    bytecode adds nothing. *)
Theorem existence_error_does_not_stop_the_field_checks
  (w : World) (cg : option CgList.t) (folder : string)
  (data : TokenData.t) (em : ExpectedMismatches.t) (chain : string)
  (token : Token.t) (net : Network.t) (s : State) (code : string) :
  verified folder data ->
  lookup chain NETWORK_DATA = Some net ->
  rpc_getCode w (calls s) (Network.provider net) (Token.address token)
    = Ok code ->
  validate_token w cg folder data em chain token s =
    (check_field Decimals w (Network.provider net) folder data em chain token
       ;;;
     check_field (Text Symbol) w (Network.provider net) folder data em chain
       token ;;;
     check_field (Text Name) w (Network.provider net) folder data em chain
       token ;;;
     ret tt)
      {| results :=
           results s ++
           (if String.eqb code "0x"
            then [diag error
                    (token_message folder chain token " does not exist")]
            else []);
         calls :=
           calls s ++ [getCode (Network.provider net) (Token.address token)]
      |}.
Proof.
  intros Hv Hl Hc.
  rewrite (validate_token_after_getCode w cg folder data em chain token net
             s code Hv Hl Hc).
  unfold check_coingecko.
  now rewrite (registered_chain_is_not_ethereum chain net Hl).
Qed.

Lemma existence_error_does_not_stop_the_field_checks_witness :
  validate_token
    (sample_world only_data_json (foo_on "sepolia" plain_token)
       ExpectedMismatches.empty accepted (Ok empty_coingecko) (Ok "0x")
       (Ok 6%Z) (Ok "FOO") (Ok "Foo"))
    (Some empty_coingecko) "FOO" (foo_on "sepolia" plain_token)
    ExpectedMismatches.empty "sepolia" plain_token initial
  = Normal tt
      {| results :=
           [diag error
              "FOO on chain sepolia token 0xAAAAaaaaAAAAaaaaAAAAaaaaAAAAaaaaAAAAaaaa does not exist";
            diag error
              "FOO on chain sepolia token 0xAAAAaaaaAAAAaaaaAAAAaaaaAAAAaaaaAAAAaaaa has incorrect decimals"];
         calls := token_reads sepolia_provider plain_token |}.
Proof.
  rewrite (existence_error_does_not_stop_the_field_checks
             (sample_world only_data_json (foo_on "sepolia" plain_token)
                ExpectedMismatches.empty accepted (Ok empty_coingecko)
                (Ok "0x") (Ok 6%Z) (Ok "FOO") (Ok "Foo"))
             (Some empty_coingecko) "FOO" (foo_on "sepolia" plain_token)
             ExpectedMismatches.empty "sepolia" plain_token
             {| Network.id := 11155111; Network.name := "Sepolia";
                Network.provider := sepolia_provider; Network.layer := 1 |}
             initial "0x"
             (conj (fun H : "FOO" = "ETH" => ltac:(discriminate H))
                   (fun H : None = Some true => ltac:(discriminate H)))
             eq_refl eq_refl).
  reflexivity.
Defined.

Lemma overridden_count_sum (token : Token.t) :
  overridden_count token =
    (if overridden Decimals token then 1 else 0)
    + ((if overridden (Text Symbol) token then 1 else 0)
       + (if overridden (Text Name) token then 1 else 0)).
Proof.
  unfold overridden_count. cbn [filter].
  destruct (overridden Decimals token), (overridden (Text Symbol) token),
    (overridden (Text Name) token); reflexivity.
Qed.

(** The outcome of the checks of a chain-verified token on a registered
    chain whose [getCode] read returns. *)
Lemma validate_token_outcome (w : World) (cg : option CgList.t)
  (folder : string) (data : TokenData.t) (em : ExpectedMismatches.t)
  (chain : string) (token : Token.t) (net : Network.t) (s : State)
  (code : string) :
  verified folder data ->
  lookup chain NETWORK_DATA = Some net ->
  rpc_getCode w (calls s) (Network.provider net) (Token.address token)
    = Ok code ->
  exists ds,
    validate_token w cg folder data em chain token s =
      Normal tt
        {| results := results s ++ ds;
           calls := calls s ++ token_reads (Network.provider net) token |}
    /\ length ds <= 4
    /\ length (filter is_warning ds) = overridden_count token.
Proof.
  intros Hv Hl Hc.
  rewrite (validate_token_after_getCode w cg folder data em chain token net
             s code Hv Hl Hc).
  set (p := Network.provider net).
  set (d0 := if String.eqb code "0x"
             then [diag error
                     (token_message folder chain token " does not exist")]
             else []).
  assert (H0 : length d0 <= 1 /\ length (filter is_warning d0) = 0)
    by (unfold d0; destruct (String.eqb code "0x"); simpl; lia).
  destruct H0 as [L0 W0].
  unfold bind.
  destruct (check_field_outcome Decimals w p folder data em chain token
              {| results := results s ++ d0;
                 calls := calls s ++ [getCode p (Token.address token)] |})
    as [d1 [E1 [L1 W1]]].
  rewrite E1. simpl results. simpl calls.
  destruct (check_field_outcome (Text Symbol) w p folder data em chain token
              {| results := (results s ++ d0) ++ d1;
                 calls := (calls s ++ [getCode p (Token.address token)])
                          ++ reads_of Decimals p token |})
    as [d2 [E2 [L2 W2]]].
  rewrite E2. simpl results. simpl calls.
  destruct (check_field_outcome (Text Name) w p folder data em chain token
              {| results := ((results s ++ d0) ++ d1) ++ d2;
                 calls := ((calls s ++ [getCode p (Token.address token)])
                           ++ reads_of Decimals p token)
                          ++ reads_of (Text Symbol) p token |})
    as [d3 [E3 [L3 W3]]].
  rewrite E3. simpl results. simpl calls.
  unfold check_coingecko.
  rewrite (registered_chain_is_not_ethereum chain net Hl).
  exists (d0 ++ d1 ++ d2 ++ d3). split; [|split].
  - unfold ret, token_reads. f_equal. f_equal.
    + now rewrite <- !app_assoc.
    + rewrite <- !app_assoc. reflexivity.
  - rewrite !length_app. lia.
  - rewrite !filter_app, !length_app, overridden_count_sum. lia.
Qed.

(** X5.  Once [getCode] has returned for a chain-verified token on a
    registered chain, the checks of the token return: the reads made are
    [getCode] followed by the reads of the fields that are not overridden,
    in the order decimals, symbol, name, all on the provider of the chain
    and the address of the token. *)
Theorem token_reads_are_getCode_then_the_fields_not_overridden
  (w : World) (cg : option CgList.t) (folder : string)
  (data : TokenData.t) (em : ExpectedMismatches.t) (chain : string)
  (token : Token.t) (net : Network.t) (s : State) (code : string) :
  verified folder data ->
  lookup chain NETWORK_DATA = Some net ->
  rpc_getCode w (calls s) (Network.provider net) (Token.address token)
    = Ok code ->
  exists s',
    validate_token w cg folder data em chain token s = Normal tt s'
    /\ calls s' = calls s ++ token_reads (Network.provider net) token.
Proof.
  intros Hv Hl Hc.
  destruct (validate_token_outcome w cg folder data em chain token net s
              code Hv Hl Hc) as [ds [H _]].
  eexists. split; [exact H | reflexivity].
Qed.

Lemma token_reads_are_getCode_then_the_fields_not_overridden_witness :
  exists s',
    validate_token
      (sample_world only_data_json (foo_on "sepolia" symbol_only_override)
         ExpectedMismatches.empty accepted (Ok empty_coingecko) (Ok "0x60")
         (Ok 18%Z) (Ok "FOO") (Err network_down))
      None "FOO" (foo_on "sepolia" symbol_only_override)
      ExpectedMismatches.empty "sepolia" symbol_only_override initial
    = Normal tt s'
    /\ calls s' =
         [getCode sepolia_provider sample_address;
          call_decimals sepolia_provider sample_address;
          call_name sepolia_provider sample_address].
Proof.
  apply (token_reads_are_getCode_then_the_fields_not_overridden
           (sample_world only_data_json (foo_on "sepolia" symbol_only_override)
              ExpectedMismatches.empty accepted (Ok empty_coingecko)
              (Ok "0x60") (Ok 18%Z) (Ok "FOO") (Err network_down))
           None "FOO" (foo_on "sepolia" symbol_only_override)
           ExpectedMismatches.empty "sepolia" symbol_only_override
           {| Network.id := 11155111; Network.name := "Sepolia";
              Network.provider := sepolia_provider; Network.layer := 1 |}
           initial "0x60"
           (conj (fun H : "FOO" = "ETH" => ltac:(discriminate H))
                 (fun H : None = Some true => ltac:(discriminate H)))
           eq_refl eq_refl).
Defined.

(** X6.  Under the same conditions the token adds at most four
    diagnostics, and the warnings among them are as many as the overridden
    fields: a token without overrides adds no warning. *)
Theorem token_warnings_count_the_overridden_fields
  (w : World) (cg : option CgList.t) (folder : string)
  (data : TokenData.t) (em : ExpectedMismatches.t) (chain : string)
  (token : Token.t) (net : Network.t) (s : State) (code : string) :
  verified folder data ->
  lookup chain NETWORK_DATA = Some net ->
  rpc_getCode w (calls s) (Network.provider net) (Token.address token)
    = Ok code ->
  exists ds s',
    validate_token w cg folder data em chain token s = Normal tt s'
    /\ results s' = results s ++ ds
    /\ length ds <= 4
    /\ length (filter is_warning ds) = overridden_count token.
Proof.
  intros Hv Hl Hc.
  destruct (validate_token_outcome w cg folder data em chain token net s
              code Hv Hl Hc) as [ds [H [L W]]].
  exists ds. eexists. split; [exact H|]. simpl. auto.
Qed.

Lemma token_warnings_count_the_overridden_fields_witness :
  exists ds s',
    validate_token
      (sample_world only_data_json (foo_on "sepolia" overriding_token)
         ExpectedMismatches.empty accepted (Ok empty_coingecko) (Ok "0x")
         (Ok 6%Z) (Ok "BAR") (Err network_down))
      None "FOO" (foo_on "sepolia" overriding_token)
      ExpectedMismatches.empty "sepolia" overriding_token initial
    = Normal tt s'
    /\ results s' = [] ++ ds
    /\ length ds <= 4
    /\ length (filter is_warning ds) = 3.
Proof.
  apply (token_warnings_count_the_overridden_fields
           (sample_world only_data_json (foo_on "sepolia" overriding_token)
              ExpectedMismatches.empty accepted (Ok empty_coingecko)
              (Ok "0x") (Ok 6%Z) (Ok "BAR") (Err network_down))
           None "FOO" (foo_on "sepolia" overriding_token)
           ExpectedMismatches.empty "sepolia" overriding_token
           {| Network.id := 11155111; Network.name := "Sepolia";
              Network.provider := sepolia_provider; Network.layer := 1 |}
           initial "0x"
           (conj (fun H : "FOO" = "ETH" => ltac:(discriminate H))
                 (fun H : None = Some true => ltac:(discriminate H)))
           eq_refl eq_refl).
Defined.

(** ** What leaves the checks of a token *)

Lemma validate_token_unregistered (w : World) (cg : option CgList.t)
  (folder : string) (data : TokenData.t) (em : ExpectedMismatches.t)
  (chain : string) (token : Token.t) (s : State) :
  verified folder data ->
  lookup chain NETWORK_DATA = None ->
  validate_token w cg folder data em chain token s =
    Throw (missing_network_failure w chain token) s.
Proof.
  intros [Hf Hn] Hl. unfold validate_token, missing_network_failure.
  apply String.eqb_neq in Hf. rewrite Hf.
  assert (Hs : not_nonstandard data = true).
  { unfold not_nonstandard.
    destruct (TokenData.nonstandard data) as [[|]|]; congruence. }
  rewrite Hs, Hl. simpl.
  destruct (Object_prototype_has w chain); [|reflexivity].
  destruct (Contract_without_provider w (Token.address token)); reflexivity.
Qed.

Lemma verified_or_exempt (folder : string) (data : TokenData.t) :
  verified folder data \/ exempt folder data.
Proof.
  unfold verified, exempt.
  destruct (String.eqb_spec folder "ETH") as [->|Hf]; [auto|].
  destruct (TokenData.nonstandard data) as [[|]|]; auto;
    left; split; congruence.
Qed.

(** The ways the checks of a token can throw. *)
Lemma validate_token_throw_cases (w : World) (cg : option CgList.t)
  (folder : string) (data : TokenData.t) (em : ExpectedMismatches.t)
  (chain : string) (token : Token.t) (s s' : State) (e : Exn) :
  validate_token w cg folder data em chain token s = Throw e s' ->
  verified folder data
  /\ ((lookup chain NETWORK_DATA = None
       /\ e = missing_network_failure w chain token /\ s' = s)
      \/ (exists net,
             lookup chain NETWORK_DATA = Some net
             /\ rpc_getCode w (calls s) (Network.provider net)
                  (Token.address token) = Err e
             /\ s' = after_call s
                       (getCode (Network.provider net)
                          (Token.address token)))).
Proof.
  intros H.
  destruct (verified_or_exempt folder data) as [Hv|He].
  2:{ rewrite (validate_token_exempt w cg folder data em chain token s He)
        in H. discriminate. }
  split; [exact Hv|].
  destruct (lookup chain NETWORK_DATA) as [net|] eqn:Hl.
  - right. exists net. split; [reflexivity|].
    destruct (rpc_getCode w (calls s) (Network.provider net)
                (Token.address token)) as [code|e0] eqn:Hc.
    + destruct (validate_token_outcome w cg folder data em chain token net
                  s code Hv Hl Hc) as [ds [E _]].
      rewrite E in H. discriminate.
    + destruct Hv as [Hf Hn].
      rewrite (getCode_failure_throws w cg folder data em chain token s net
                 e0 Hf Hn Hl Hc) in H.
      injection H as <- <-. auto.
  - left. rewrite (validate_token_unregistered w cg folder data em chain
                     token s Hv Hl) in H.
    injection H as <- <-. auto.
Qed.



(** ** The chains of the schema and of the registry *)

Lemma schema_chain_is_registered (chain : string) :
  In chain TOKEN_DATA_SCHEMA_tokens_properties ->
  exists net, lookup chain NETWORK_DATA = Some net.
Proof.
  unfold TOKEN_DATA_SCHEMA_tokens_properties. simpl.
  intros [<-|[<-|[]]]; eexists; reflexivity.
Qed.

(** X8.  The chain names that [TOKEN_DATA_SCHEMA] declares under [tokens]
    are exactly the own keys of [NETWORK_DATA]; and every registered
    network has a provider configured with the chain id of the network.
    (Which keys the validator accepts is another matter: it also lets
    member names of [Object.prototype] through.) *)
Theorem declared_schema_chains_are_the_registered_chains (chain : string) :
  (In chain TOKEN_DATA_SCHEMA_tokens_properties <->
   exists net, lookup chain NETWORK_DATA = Some net)
  /\
  (forall net,
      lookup chain NETWORK_DATA = Some net ->
      chainId (Network.provider net) = Network.id net).
Proof.
  split; [split|].
  - apply schema_chain_is_registered.
  - intros [net H]. unfold TOKEN_DATA_SCHEMA_tokens_properties.
    destruct (registered_chain chain net H) as [->| ->]; simpl; auto.
  - intros net H.
    destruct (registered_chain chain net H) as [->| ->];
      cbv [lookup NETWORK_DATA] in H; simpl in H;
      injection H as <-; reflexivity.
Qed.

Lemma declared_schema_chains_are_the_registered_chains_witness :
  exists net, lookup "specular" NETWORK_DATA = Some net.
Proof.
  apply (proj1 (proj1 (declared_schema_chains_are_the_registered_chains "specular"))).
  simpl. auto.
Defined.

(** X9.  For an entry all of whose chain keys are among the chain names
    that the schema declares ([specular], [sepolia]), no TypeError on a
    missing network can occur: if the token loop of the entry throws, the
    exception is the one thrown by the [getCode] read of one of its tokens
    on the provider of its chain. *)
Theorem declared_chains_throw_only_from_getCode
  (w : World) (cg : option CgList.t) (folder : string)
  (data : TokenData.t) (em : ExpectedMismatches.t)
  (entries : list (string * Token.t)) (s s' : State) (e : Exn) :
  (forall entry,
      In entry entries ->
      In (fst entry) TOKEN_DATA_SCHEMA_tokens_properties) ->
  for_each entries
    (fun entry => validate_token w cg folder data em (fst entry) (snd entry))
    s = Throw e s' ->
  exists entry net h,
    In entry entries
    /\ lookup (fst entry) NETWORK_DATA = Some net
    /\ rpc_getCode w h (Network.provider net) (Token.address (snd entry))
       = Err e.
Proof.
  revert s. induction entries as [|x entries IH]; intros s Hall H.
  - discriminate H.
  - simpl in H. unfold bind in H.
    destruct (validate_token w cg folder data em (fst x) (snd x) s)
      as [[] s1|e1 s1] eqn:Hx.
    + destruct (IH s1) as [entry [net [h [Hin Hrest]]]].
      * intros entry Hin. apply Hall. now right.
      * exact H.
      * exists entry, net, h. split; [now right | exact Hrest].
    + injection H as <- <-.
      destruct (validate_token_throw_cases w cg folder data em (fst x)
                  (snd x) s s1 e1 Hx)
        as [_ [[Hl _]|[net [Hl [Hc _]]]]].
      * destruct (schema_chain_is_registered (fst x)) as [net Hnet].
        -- apply Hall. now left.
        -- congruence.
      * exists x, net, (calls s). split; [now left | auto].
Qed.

Lemma declared_chains_throw_only_from_getCode_witness :
  exists entry net h,
    In entry [("sepolia", plain_token)]
    /\ lookup (fst entry) NETWORK_DATA = Some net
    /\ rpc_getCode
         (sample_world only_data_json (foo_on "sepolia" plain_token)
            ExpectedMismatches.empty accepted (Ok empty_coingecko)
            (Err network_down) (Ok 18%Z) (Ok "FOO") (Ok "Foo"))
         h (Network.provider net) (Token.address (snd entry))
       = Err network_down.
Proof.
  apply (declared_chains_throw_only_from_getCode
           (sample_world only_data_json (foo_on "sepolia" plain_token)
              ExpectedMismatches.empty accepted (Ok empty_coingecko)
              (Err network_down) (Ok 18%Z) (Ok "FOO") (Ok "Foo"))
           (Some empty_coingecko) "FOO" (foo_on "sepolia" plain_token)
           ExpectedMismatches.empty [("sepolia", plain_token)] initial
           (after_call initial (getCode sepolia_provider sample_address))
           network_down).
  - intros entry [<-|[]]. simpl. auto.
  - reflexivity.
Defined.

(** ** One folder *)

(** X10.  The logo check does not stop the validation of the entry: for an
    entry whose files load and whose data pass the schema, the folder adds
    at most one logo error (none exactly when one logo file is found) and
    then runs the checks of every declared token from that state. *)
Theorem logo_error_does_not_stop_the_entry
  (w : World) (cg : option CgList.t) (datadir folder : string)
  (data : TokenData.t) (em : ExpectedMismatches.t) (s : State) :
  loads w datadir folder data em ->
  ValidatorResult.valid (schema_validate w data) = true ->
  validate_folder w cg datadir folder s =
    for_each (TokenData.tokens data)
      (fun entry =>
         validate_token w cg folder data em (fst entry) (snd entry))
      {| results := results s ++ logo_diagnostics w datadir folder;
         calls := calls s |}
  /\ length (logo_diagnostics w datadir folder) <= 1
  /\ (logo_diagnostics w datadir folder = [] <->
      length (glob_sync w (path_join w [datadir; folder] ++ "/logo.{png,svg}"))
        = 1).
Proof.
  intros Hl Hv. split; [|split].
  - rewrite (validate_folder_loaded w cg datadir folder data em s Hl), Hv.
    reflexivity.
  - unfold logo_diagnostics. destruct (Nat.eqb _ 1); simpl; lia.
  - unfold logo_diagnostics.
    destruct (Nat.eqb_spec
                (length (glob_sync w
                           (path_join w [datadir; folder] ++ "/logo.{png,svg}")))
                1) as [E|E].
    + tauto.
    + split; [discriminate | contradiction].
Qed.

Lemma logo_error_does_not_stop_the_entry_witness :
  validate_folder
    (sample_world only_data_json (foo_on "sepolia" plain_token)
       ExpectedMismatches.empty accepted (Ok empty_coingecko) (Ok "0x60")
       (Ok 18%Z) (Ok "FOO") (Ok "Foo"))
    None "data" "FOO" initial
  = Normal tt
      {| results := [];
         calls := token_reads sepolia_provider plain_token |}.
Proof.
  rewrite (proj1
             (logo_error_does_not_stop_the_entry
                (sample_world only_data_json (foo_on "sepolia" plain_token)
                   ExpectedMismatches.empty accepted (Ok empty_coingecko)
                   (Ok "0x60") (Ok 18%Z) (Ok "FOO") (Ok "Foo"))
                None "data" "FOO" (foo_on "sepolia" plain_token)
                ExpectedMismatches.empty initial
                (conj (ex_intro _ "{}" (conj eq_refl eq_refl)) eq_refl)
                eq_refl)).
  reflexivity.
Defined.

(** ** Runs that are aborted *)

Lemma for_each_aborts {A : Type} (body : A -> M unit) (x : A) (l : list A) :
  (forall s, exists e s', body x s = Throw e s') ->
  In x l ->
  forall s, exists e s', for_each l body s = Throw e s'.
Proof.
  intros Hx. induction l as [|y l IH]; intros Hin s; [contradiction|].
  simpl. unfold bind.
  destruct Hin as [->|Hin].
  - destruct (Hx s) as [e [s' H]]. rewrite H. eauto.
  - destruct (body y s) as [[] s1|e s1]; [now apply IH | eauto].
Qed.

Lemma load_coingecko_returns (w : World) (s : State) :
  exists cg s', load_coingecko w s = Normal cg s'.
Proof.
  unfold load_coingecko, try_catch, bind, lift.
  destruct (fetch_coingecko w); simpl; eauto.
Qed.

(** A folder on which the loop body always throws aborts every run that
    selects it. *)
Lemma run_aborts (w : World) (datadir : string)
  (tokens : option (list string)) (folders : list string)
  (folder : string) :
  list_folders w datadir tokens = Ok folders ->
  In folder folders ->
  (forall cg s, exists e s', validate_folder w cg datadir folder s = Throw e s')
  ->
  exists e st, run_validate w datadir tokens = Throw e st.
Proof.
  intros Hf Hin Hthrow. unfold run_validate, validate.
  rewrite Hf. unfold bind at 1. simpl. unfold bind at 1.
  destruct (load_coingecko_returns w initial) as [cg [s1 H1]]. rewrite H1.
  unfold bind.
  destruct (for_each_aborts (validate_folder w cg datadir) folder folders
              (Hthrow cg) Hin s1) as [e [s2 H2]].
  rewrite H2. eauto.
Qed.

(** X11.  A selected folder without [data.json] aborts the whole run,
    whatever the other folders hold: [validate] throws and no report is
    returned. *)
Theorem missing_data_file_aborts_every_run
  (w : World) (datadir : string) (tokens : option (list string))
  (folders : list string) (folder : string) :
  list_folders w datadir tokens = Ok folders ->
  In folder folders ->
  files w (path_join w [datadir; folder; "data.json"]) = None ->
  exists e st, run_validate w datadir tokens = Throw e st.
Proof.
  intros Hf Hin Hmiss.
  apply (run_aborts w datadir tokens folders folder Hf Hin).
  intros cg s. rewrite (missing_data_file_throws w cg datadir folder s Hmiss).
  eauto.
Qed.

Lemma missing_data_file_aborts_every_run_witness :
  exists e st,
    run_validate (listing_world ["AAA"; "B"]) "data" (Some ["B"])
    = Throw e st.
Proof.
  apply (missing_data_file_aborts_every_run (listing_world ["AAA"; "B"])
           "data" (Some ["B"]) ["B"] "B" eq_refl (or_introl eq_refl) eq_refl).
Defined.

Lemma unparsable_folder_throws (w : World) (cg : option CgList.t)
  (datadir folder : string) (s : State) :
  unparsable w datadir folder ->
  exists e s', validate_folder w cg datadir folder s = Throw e s'.
Proof.
  intros [[text [e [Hf Hp]]]|[text [e [Hf Hp]]]].
  - rewrite (malformed_data_file_throws w cg datadir folder s text e Hf Hp).
    eauto.
  - destruct (files w (path_join w [datadir; folder; "data.json"]))
      as [dtext|] eqn:Hd.
    + destruct (parse_TokenData w dtext) as [data|e'] eqn:Hpd.
      * unfold validate_folder, bind, existsSync, readFileSync.
        rewrite Hd. simpl. rewrite Hpd. simpl.
        destruct (when _ _ s) as [[] s1|e1 s1]; [|eauto].
        unfold load_expectedMismatches, existsSync, readFileSync, bind.
        rewrite Hf. simpl. rewrite Hp. simpl. eauto.
      * rewrite (malformed_data_file_throws w cg datadir folder s dtext e'
                   Hd Hpd). eauto.
    + rewrite (missing_data_file_throws w cg datadir folder s Hd). eauto.
Qed.

(** X12.  A selected folder whose [data.json] or [expectedMismatches.json]
    exists but is not valid JSON aborts the whole run: [JSON.parse] is
    outside every [try], and no report is returned. *)
Theorem unparsable_json_aborts_every_run
  (w : World) (datadir : string) (tokens : option (list string))
  (folders : list string) (folder : string) :
  list_folders w datadir tokens = Ok folders ->
  In folder folders ->
  unparsable w datadir folder ->
  exists e st, run_validate w datadir tokens = Throw e st.
Proof.
  intros Hf Hin Hbad.
  apply (run_aborts w datadir tokens folders folder Hf Hin).
  intros cg s. now apply unparsable_folder_throws.
Qed.

Lemma unparsable_json_aborts_every_run_witness :
  exists e st,
    run_validate broken_expectedMismatches_world "data" None = Throw e st.
Proof.
  apply (unparsable_json_aborts_every_run broken_expectedMismatches_world
           "data" None ["FOO"] "FOO" eq_refl (or_introl eq_refl)
           (or_intror
              (ex_intro _ "{}"
                 (ex_intro _ (Thrown "SyntaxError") (conj eq_refl eq_refl))))).
Defined.

(** ** The report *)

Lemma appends_load_coingecko (w : World) : appends (load_coingecko w).
Proof.
  unfold load_coingecko. apply appends_try_catch.
  - apply appends_bind; [apply appends_lift | intro; apply appends_ret].
  - intros _. apply appends_bind; [apply appends_push | intro; apply appends_ret].
Qed.

(** X13.  [validate] only appends to [results]: whether it returns or
    throws, and from whatever state, the diagnostics present before are
    still there, in the same order, in front of the new ones; the same
    holds for the body of the folder loop. *)
Theorem diagnostics_are_only_appended
  (w : World) (datadir : string) (tokens : option (list string)) :
  appends (validate w datadir tokens)
  /\ forall cg folder, appends (validate_folder w cg datadir folder).
Proof.
  split.
  - unfold validate.
    apply appends_bind; [apply appends_lift | intros folders].
    apply appends_bind; [apply appends_load_coingecko | intros cg].
    apply appends_bind.
    + apply appends_for_each. intros x. apply appends_validate_folder.
    + intros _. apply appends_validate_final.
  - intros cg folder. apply appends_validate_folder.
Qed.

Lemma validate_final_run (w : World) (datadir : string) (s : State) :
  validate_final w datadir s =
    match generate w datadir with
    | Ok compiled =>
        Normal (results s ++ final_diagnostics w compiled)
          {| results := results s ++ final_diagnostics w compiled;
             calls := calls s |}
    | Err e => Throw e s
    end.
Proof.
  unfold validate_final, bind, lift, final_diagnostics.
  destruct (generate w datadir) as [compiled|e]; simpl; [|reflexivity].
  destruct (ajv_errors w compiled); simpl.
  - reflexivity.
  - destruct s. simpl. now rewrite app_nil_r.
Qed.

(** X14.  A run returns a report only if the generator returned a list,
    and the report then ends with the diagnostics of the final check: one
    error embedding the ajv errors when the list is rejected, nothing when
    it is accepted.  The returned array is [results] itself. *)
Theorem report_ends_with_the_final_list_check
  (w : World) (datadir : string) (tokens : option (list string))
  (rs : list ValidationResult) (st : State) :
  run_validate w datadir tokens = Normal rs st ->
  exists compiled body,
    generate w datadir = Ok compiled
    /\ rs = body ++ final_diagnostics w compiled
    /\ results st = rs.
Proof.
  unfold run_validate, validate, bind.
  destruct (lift (list_folders w datadir tokens) initial)
    as [folders s0|e0 s0]; [|discriminate].
  destruct (load_coingecko w s0) as [cg s1|e1 s1]; [|discriminate].
  destruct (for_each folders (validate_folder w cg datadir) s1)
    as [[] s2|e2 s2]; [|discriminate].
  rewrite validate_final_run.
  destruct (generate w datadir) as [compiled|e]; [|discriminate].
  intros H. injection H as <- <-.
  exists compiled, (results s2). auto.
Qed.

Lemma report_ends_with_the_final_list_check_witness :
  exists compiled body,
    generate (listing_world []) "data" = Ok compiled
    /\ [diag error "final token list is invalid: []"]
       = body ++ final_diagnostics (listing_world []) compiled
    /\ results
         {| results := [diag error "final token list is invalid: []"];
            calls := [] |}
       = [diag error "final token list is invalid: []"].
Proof.
  apply (report_ends_with_the_final_list_check (listing_world []) "data" None
           [diag error "final token list is invalid: []"]
           {| results := [diag error "final token list is invalid: []"];
              calls := [] |}).
  reflexivity.
Defined.

(** ** The order of the folders *)

Lemma insert_sorted (w : World) (x : string) (l : list string) :
  (forall a b, folder_le w a b \/ folder_le w b a) ->
  Sorted (folder_le w) l ->
  Sorted (folder_le w) (insert (folder_order w) x l).
Proof.
  intros Htotal Hs. induction Hs as [|y l Hs IH Hd]; simpl.
  - auto.
  - destruct (Z.leb_spec (folder_order w x y) 0) as [Hle|Hgt].
    + constructor; [now constructor | now constructor].
    + constructor; [exact IH|].
      assert (Hyx : folder_le w y x).
      { destruct (Htotal x y) as [H|H]; [unfold folder_le in H; lia | exact H]. }
      destruct l as [|z l]; simpl.
      * now constructor.
      * destruct (folder_order w x z <=? 0)%Z; constructor; trivial.
        now inversion Hd.
Qed.

Lemma sort_sorted (w : World) (l : list string) :
  (forall a b, folder_le w a b \/ folder_le w b a) ->
  Sorted (folder_le w) (sort (folder_order w) l).
Proof.
  intros Htotal. induction l as [|x l IH]; simpl.
  - constructor.
  - now apply insert_sorted.
Qed.

Lemma filter_strongly_sorted {A : Type} (R : A -> A -> Prop)
  (keep : A -> bool) (l : list A) :
  StronglySorted R l -> StronglySorted R (filter keep l).
Proof.
  induction 1 as [|x l Hs IH Hall]; simpl.
  - constructor.
  - destruct (keep x); [|exact IH].
    constructor; [exact IH|].
    rewrite Forall_forall in *. intros y Hy.
    apply filter_In in Hy. now apply Hall.
Qed.

(** X15.  When the comparison of lower-cased folder names is total and
    transitive, the folders are processed in sorted order: in the list
    that the loop walks, every folder compares less than or equal to each
    folder after it, also after the filter on the requested tokens. *)
Theorem folders_are_processed_in_sorted_order
  (w : World) (datadir : string) (tokens : option (list string))
  (folders : list string) :
  (forall a b, folder_le w a b \/ folder_le w b a) ->
  (forall a b c, folder_le w a b -> folder_le w b c -> folder_le w a c) ->
  list_folders w datadir tokens = Ok folders ->
  StronglySorted (folder_le w) folders.
Proof.
  intros Htotal Htrans H. unfold list_folders in H.
  destruct (readdirSync w datadir) as [names|e]; [|discriminate].
  injection H as <-.
  apply filter_strongly_sorted.
  apply Sorted_StronglySorted.
  - exact Htrans.
  - now apply (sort_sorted w names).
Qed.

Lemma folders_are_processed_in_sorted_order_witness :
  StronglySorted (folder_le (listing_world ["CCC"; "a"; "Bb"; "dddd"]))
    ["a"; "Bb"; "dddd"].
Proof.
  apply (folders_are_processed_in_sorted_order
           (listing_world ["CCC"; "a"; "Bb"; "dddd"]) "data"
           (Some ["dddd"; "a"; "Bb"]) ["a"; "Bb"; "dddd"]).
  - intros a b. unfold folder_le, folder_order. simpl. unfold by_length. lia.
  - intros a b c. unfold folder_le, folder_order. simpl. unfold by_length.
    lia.
  - reflexivity.
Defined.

(** ** The CoinGecko block and the fetched list *)

(** X16.  The block of lines 195-208 taken alone, with a fetched list: on
    a chain other than [ethereum] it does nothing; on [ethereum] it does
    nothing when the address of the token is on the list, compared in
    lower case, and adds exactly one warning, "not found on CoinGecko token
    list", when it is not. *)
Theorem coingecko_block_warns_for_unlisted_ethereum_addresses
  (cg : CgList.t) (folder chain : string) (token : Token.t) (s : State) :
  (chain <> "ethereum" ->
   check_coingecko (Some cg) folder chain token s = Normal tt s)
  /\
  (chain = "ethereum" -> listed cg token ->
   check_coingecko (Some cg) folder chain token s = Normal tt s)
  /\
  (chain = "ethereum" -> ~ listed cg token ->
   check_coingecko (Some cg) folder chain token s =
     Normal tt
       (with_results s
          [diag warning
             (token_message folder chain token
                " not found on CoinGecko token list")])).
Proof.
  rewrite check_coingecko_block.
  split; [|split].
  - intros Hc. apply String.eqb_neq in Hc. rewrite Hc.
    now rewrite with_results_nil.
  - intros -> [t [Hin Heq]]. simpl String.eqb.
    assert (Hex : existsb
              (fun t => String.eqb (toLowerCase (CgToken.address t))
                                   (toLowerCase (Token.address token)))
              (CgList.tokens cg) = true).
    { apply existsb_exists. exists t. split; [exact Hin|].
      now apply String.eqb_eq. }
    rewrite Hex. now rewrite with_results_nil.
  - intros -> Hno. simpl String.eqb.
    assert (Hex : existsb
              (fun t => String.eqb (toLowerCase (CgToken.address t))
                                   (toLowerCase (Token.address token)))
              (CgList.tokens cg) = false).
    { apply not_true_is_false. intros Hex.
      apply existsb_exists in Hex as [t [Hin Heq]].
      apply Hno. exists t. split; [exact Hin|]. now apply String.eqb_eq. }
    now rewrite Hex.
Qed.

Lemma coingecko_block_warns_for_unlisted_ethereum_addresses_witness :
  check_coingecko (Some lowercase_coingecko) "FOO" "ethereum" plain_token
    initial
  = Normal tt initial.
Proof.
  apply (proj1 (proj2
           (coingecko_block_warns_for_unlisted_ethereum_addresses
              lowercase_coingecko "FOO" "ethereum" plain_token initial))).
  - reflexivity.
  - exists {| CgToken.address :=
                "0xaaaaaaaaaaaaaaaaaaaaaaaaaaaaaaaaaaaaaaaa" |}.
    split; [left; reflexivity | reflexivity].
Defined.

(** ** Diagnostics never steer the run *)

Lemma prepend_nil (s : State) : prepend [] s = s.
Proof. now destruct s. Qed.

Lemma blind_ret {A : Type} (a : A) : blind (ret a).
Proof. intros pre s. reflexivity. Qed.

Lemma blind_throw {A : Type} (e : Exn) : blind (@throw A e).
Proof. intros pre s. reflexivity. Qed.

Lemma blind_lift {A : Type} (r : result A) : blind (lift r).
Proof. destruct r; [apply blind_ret | apply blind_throw]. Qed.

Lemma blind_push (t : ResultType) (msg : string) : blind (push t msg).
Proof.
  intros pre s. unfold push. simpl. unfold prepend. simpl.
  now rewrite app_assoc.
Qed.

Lemma blind_rpc {A : Type} (c : Call) (answer : list Call -> result A) :
  blind (rpc c answer).
Proof.
  intros pre s. unfold rpc. simpl. destruct (answer (calls s)); reflexivity.
Qed.

Lemma blind_bind {A B : Type} (m : M A) (k : A -> M B) :
  blind m -> (forall a, blind (k a)) -> blind (bind m k).
Proof.
  intros Hm Hk pre s. unfold bind. rewrite Hm.
  destruct (m s) as [a s1|e s1]; simpl; [apply Hk | reflexivity].
Qed.

Lemma blind_try_catch {A : Type} (m : M A) (h : Exn -> M A) :
  blind m -> (forall e, blind (h e)) -> blind (try_catch m h).
Proof.
  intros Hm Hh pre s. unfold try_catch. rewrite Hm.
  destruct (m s) as [a s1|e s1]; simpl; [reflexivity | apply Hh].
Qed.

Lemma blind_when (b : bool) (m : M unit) : blind m -> blind (when b m).
Proof. destruct b; [trivial | intros _; apply blind_ret]. Qed.

Lemma blind_for_each {A : Type} (l : list A) (body : A -> M unit) :
  (forall x, blind (body x)) -> blind (for_each l body).
Proof.
  intros H. induction l as [|x l IH]; simpl.
  - apply blind_ret.
  - apply blind_bind; [apply H | intros _; exact IH].
Qed.

Create HintDb blind.

#[local] Hint Resolve blind_ret blind_throw blind_lift blind_push blind_rpc
  blind_when : blind.

Ltac blind_step :=
  first [ apply blind_bind; [|intro]
        | apply blind_try_catch; [|intro]
        | apply blind_for_each; intro
        | solve [auto with blind] ].

Lemma blind_validate_token (w : World) (cg : option CgList.t)
  (folder : string) (data : TokenData.t) (em : ExpectedMismatches.t)
  (chain : string) (token : Token.t) :
  blind (validate_token w cg folder data em chain token).
Proof.
  unfold validate_token.
  destruct (negb (String.eqb folder "ETH") && not_nonstandard data);
    [|apply blind_ret].
  destruct (lookup chain NETWORK_DATA) as [net|].
  2:{ destruct (Object_prototype_has w chain);
        [destruct (Contract_without_provider w (Token.address token))|];
        apply blind_throw. }
  unfold check_exists, check_decimals, check_symbol, check_name,
    check_coingecko.
  destruct (overrides_decimals token), (overrides_symbol token),
    (overrides_name token), (String.eqb chain "ethereum"), cg as [cg|];
    try destruct (cg_find cg token);
    repeat blind_step.
Qed.

Lemma blind_validate_folder (w : World) (cg : option CgList.t)
  (datadir folder : string) :
  blind (validate_folder w cg datadir folder).
Proof.
  unfold validate_folder, load_expectedMismatches.
  apply blind_bind; [auto with blind|intros _].
  apply blind_bind; [auto with blind|intros text].
  apply blind_bind; [auto with blind|intros data].
  apply blind_bind; [auto with blind|intros _].
  apply blind_bind.
  - destruct (existsSync w _); repeat blind_step.
  - intros em.
    destruct (negb (ValidatorResult.valid (schema_validate w data)));
      apply blind_for_each; intros x;
      [apply blind_push | apply blind_validate_token].
Qed.

(** X17.  The diagnostics collected so far never steer a folder: started
    with [pre] in front of the diagnostics, the body of the folder loop
    does exactly what it does without it (same exception or same return,
    same reads, same new diagnostics), with [pre] still in front. *)
Theorem folder_validation_ignores_earlier_diagnostics
  (w : World) (cg : option CgList.t) (datadir folder : string)
  (pre : list ValidationResult) (s : State) :
  validate_folder w cg datadir folder (prepend pre s) =
    prepend_outcome pre (validate_folder w cg datadir folder s).
Proof. apply blind_validate_folder. Qed.

Lemma validate_rest_prepend (w : World) (cg : option CgList.t)
  (datadir : string) (folders : list string)
  (pre : list ValidationResult) (s : State) :
  (for_each folders (validate_folder w cg datadir) ;;;
   validate_final w datadir) (prepend pre s) =
    prepend_report pre
      ((for_each folders (validate_folder w cg datadir) ;;;
        validate_final w datadir) s).
Proof.
  unfold bind.
  rewrite (blind_for_each folders (validate_folder w cg datadir)
             (blind_validate_folder w cg datadir) pre s).
  destruct (for_each folders (validate_folder w cg datadir) s)
    as [[] s1|e s1]; simpl; [|reflexivity].
  rewrite !validate_final_run.
  destruct (generate w datadir) as [compiled|e]; simpl; [|reflexivity].
  unfold prepend_report, prepend. simpl. now rewrite !app_assoc.
Qed.

Lemma validate_rest_any_list (w : World) (cg cg' : option CgList.t)
  (datadir : string) (folders : list string) (s : State) :
  (for_each folders (validate_folder w cg datadir) ;;;
   validate_final w datadir) s =
  (for_each folders (validate_folder w cg' datadir) ;;;
   validate_final w datadir) s.
Proof.
  unfold bind.
  rewrite (for_each_ext (validate_folder w cg datadir)
             (validate_folder w cg' datadir) folders
             (fun x s0 =>
                coingecko_list_is_never_consulted_in_folder w cg cg' datadir
                  x s0) s).
  reflexivity.
Qed.

Lemma run_validate_steps (w : World) (datadir : string)
  (tokens : option (list string)) :
  run_validate w datadir tokens =
    match list_folders w datadir tokens with
    | Ok folders =>
        match load_coingecko w initial with
        | Normal cg s1 =>
            (for_each folders (validate_folder w cg datadir) ;;;
             validate_final w datadir) s1
        | Throw e s1 => Throw e s1
        end
    | Err e => Throw e initial
    end.
Proof.
  unfold run_validate, validate.
  destruct (list_folders w datadir tokens) as [folders|e]; reflexivity.
Qed.

Lemma run_validate_with_fetch (w : World) (datadir : string)
  (tokens : option (list string)) (r : result CgList.t) :
  run_validate (with_fetch w r) datadir tokens =
    match list_folders w datadir tokens with
    | Ok folders =>
        match load_coingecko (with_fetch w r) initial with
        | Normal cg s1 =>
            (for_each folders (validate_folder w cg datadir) ;;;
             validate_final w datadir) s1
        | Throw e s1 => Throw e s1
        end
    | Err e => Throw e initial
    end.
Proof. exact (run_validate_steps (with_fetch w r) datadir tokens). Qed.

(** X18.  All else equal, a failed fetch of the CoinGecko list changes the
    outcome of a run in one way only: the warning "fetch for CoinGecko
    token list failed" is in front of the diagnostics.  The run throws in
    the same cases with the same exception, makes the same reads and
    reports the same diagnostics after that warning, whatever list the
    successful fetch returns. *)
Theorem failed_fetch_only_prepends_its_warning
  (w : World) (datadir : string) (tokens : option (list string))
  (cg : CgList.t) (e : Exn) :
  run_validate (with_fetch w (Err e)) datadir tokens =
    match list_folders w datadir tokens with
    | Ok _ =>
        prepend_report [fetch_failed]
          (run_validate (with_fetch w (Ok cg)) datadir tokens)
    | Err e' => Throw e' initial
    end.
Proof.
  rewrite !run_validate_with_fetch.
  destruct (list_folders w datadir tokens) as [folders|e']; [|reflexivity].
  rewrite (load_coingecko_failed (with_fetch w (Err e)) e initial eq_refl).
  rewrite (load_coingecko_fetched (with_fetch w (Ok cg)) cg initial eq_refl).
  rewrite (validate_rest_any_list w (Some cg) None datadir folders initial).
  apply (validate_rest_prepend w None datadir folders [fetch_failed] initial).
Qed.

(** X19.  The content of the fetched list has no influence on a run: two
    worlds that differ only in the list returned by a successful fetch
    give the same outcome, with the same report. *)
Theorem fetched_list_content_is_irrelevant
  (w : World) (datadir : string) (tokens : option (list string))
  (cg cg' : CgList.t) :
  run_validate (with_fetch w (Ok cg)) datadir tokens =
  run_validate (with_fetch w (Ok cg')) datadir tokens.
Proof.
  rewrite !run_validate_with_fetch.
  destruct (list_folders w datadir tokens) as [folders|e']; [|reflexivity].
  rewrite (load_coingecko_fetched (with_fetch w (Ok cg)) cg initial eq_refl).
  rewrite (load_coingecko_fetched (with_fetch w (Ok cg')) cg' initial eq_refl).
  apply (validate_rest_any_list w (Some cg) (Some cg') datadir folders
           initial).
Qed.

(** ** Requested tokens that are not folders *)

Lemma filter_nothing {A : Type} (keep : A -> bool) (l : list A) :
  (forall x, In x l -> keep x = false) -> filter keep l = [].
Proof.
  induction l as [|x l IH]; intros H; simpl; [reflexivity|].
  rewrite (H x (or_introl eq_refl)). apply IH. intros y Hy. apply H. now right.
Qed.

(** X20.  Requested tokens that name no folder of the data directory are
    ignored without any diagnostic: a run whose token list holds only such
    names is the run with the empty token list (no folder is validated, no
    read is made). *)
Theorem unknown_requested_tokens_are_silently_ignored
  (w : World) (datadir : string) (names l : list string) :
  readdirSync w datadir = Ok names ->
  (forall t, In t l -> ~ In t names) ->
  list_folders w datadir (Some l) = Ok []
  /\ run_validate w datadir (Some l) = run_validate w datadir (Some []).
Proof.
  intros Hr Hno.
  assert (H1 : list_folders w datadir (Some l) = Ok []).
  { rewrite (list_folders_filter w datadir (Some l) names Hr).
    f_equal. apply filter_nothing. intros x Hx. simpl. unfold includes.
    apply not_true_is_false. intros Hex.
    apply existsb_exists in Hex as [t [Ht Heq]].
    apply String.eqb_eq in Heq. subst t.
    apply (Hno x Ht).
    apply (Permutation_in x (Permutation_sym
                               (sort_permutation (folder_order w) names))).
    exact Hx. }
  assert (H2 : list_folders w datadir (Some []) = Ok []).
  { rewrite (list_folders_filter w datadir (Some []) names Hr).
    simpl. now rewrite filter_none. }
  split; [exact H1|].
  now rewrite !run_validate_steps, H1, H2.
Qed.

Lemma unknown_requested_tokens_are_silently_ignored_witness :
  run_validate (listing_world ["AAA"; "B"]) "data" (Some ["aaa"; "C"])
  = run_validate (listing_world ["AAA"; "B"]) "data" (Some []).
Proof.
  apply (proj2
           (unknown_requested_tokens_are_silently_ignored
              (listing_world ["AAA"; "B"]) "data" ["AAA"; "B"] ["aaa"; "C"]
              eq_refl
              (fun t Hl Hn =>
                 ltac:(simpl in Hl, Hn;
                       destruct Hl as [<-|[<-|[]]];
                       destruct Hn as [Hn|[Hn|[]]]; discriminate Hn)))).
Defined.

(** ** The bridge tables *)

(** X21.  The bridge tables of [chains.ts] agree with each other: the L1
    chain paired with an L2 chain in [L2_TO_L1_PAIR] lists, in
    [L1_STANDARD_BRIDGE_INFORMATION], a bridge for that L2 chain; every
    bridge listed there under an L1 chain is for an L2 chain paired with
    that L1 chain; the paired L2 chain has its own bridge record and is a
    layer-2 network of [NETWORK_DATA]; the bridge addresses have the 42
    characters of [ADDRESS_TYPE].  The paired L1 chain, however, has no
    network in [NETWORK_DATA]. *)
Theorem bridge_tables_agree (l2 l1 : string) :
  (lookup l2 L2_TO_L1_PAIR = Some l1 ->
   (exists infos info,
       lookup l1 L1_STANDARD_BRIDGE_INFORMATION = Some infos
       /\ In info infos
       /\ L1BridgeInformation.l2Chain info = l2
       /\ String.length (L1BridgeInformation.l1StandardBridgeAddress info)
          = ADDRESS_TYPE_minLength)
   /\ (exists b,
          lookup l2 L2_STANDARD_BRIDGE_INFORMATION = Some b
          /\ String.length (L2BridgeInformation.l2StandardBridgeAddress b)
             = ADDRESS_TYPE_maxLength)
   /\ (exists net,
          lookup l2 NETWORK_DATA = Some net /\ Network.layer net = 2%Z)
   /\ lookup l1 NETWORK_DATA = None)
  /\
  (forall infos info,
      lookup l1 L1_STANDARD_BRIDGE_INFORMATION = Some infos ->
      In info infos ->
      L1BridgeInformation.l2Chain info = l2 ->
      lookup l2 L2_TO_L1_PAIR = Some l1).
Proof.
  split.
  - cbv [lookup L2_TO_L1_PAIR].
    destruct (String.eqb "specular" l2) eqn:E; [|discriminate].
    apply String.eqb_eq in E. subst l2. intros H. injection H as <-.
    split; [|split; [|split]].
    + eexists. eexists. split; [reflexivity|].
      split; [left; reflexivity|]. split; reflexivity.
    + eexists. split; reflexivity.
    + eexists. split; reflexivity.
    + reflexivity.
  - intros infos info Hl Hin Hc.
    cbv [lookup L1_STANDARD_BRIDGE_INFORMATION] in Hl.
    destruct (String.eqb "ethereum" l1) eqn:E1.
    + apply String.eqb_eq in E1. subst l1. injection Hl as <-.
      destruct Hin as [<-|[]]. simpl in Hc. subst l2. reflexivity.
    + destruct (String.eqb "sepolia" l1); [|discriminate].
      injection Hl as <-. contradiction.
Qed.

Lemma bridge_tables_agree_witness :
  lookup "ethereum" NETWORK_DATA = None.
Proof.
  apply (proj1 (bridge_tables_agree "specular" "ethereum")).
  reflexivity.
Defined.

(** * The claims on overrides and on schema failures, on the whole checks *)

(** ** Overrides, in the checks of a token *)












(** ** Schema failures and the expected-mismatches file *)

(** C6, as stated, fails: the data of [FOO] parse and fail the schema with
    two violations, but [expectedMismatches.json] exists and is not valid
    JSON; [JSON.parse] throws at lines 83-87, before the validator runs:
    no violation is reported and the run is left by the exception. *)
Lemma schema_failure_unreported_when_expectedMismatches_unparsable :
  let w := rejected_with_broken_expectedMismatches_world in
  files w "data/FOO/data.json" = Some "{}"
  /\ parse_TokenData w "{}" = Ok (foo_on "sepolia" plain_token)
  /\ ValidatorResult.valid (schema_validate w (foo_on "sepolia" plain_token))
     = false
  /\ length (ValidatorResult.errors
               (schema_validate w (foo_on "sepolia" plain_token))) = 2
  /\ validate_folder w (Some empty_coingecko) "data" "FOO" initial
     = Throw (Thrown "SyntaxError") initial
  /\ run_validate w "data" None = Throw (Thrown "SyntaxError") initial.
Proof.
  simpl. repeat split; reflexivity.
Qed.
